(** * Asthma risk assessment: the risk scorer and the sensor-ingest endpoint

    A shallow embedding of [app.py]: the values the Flask application
    handles (JSON documents decoded into Python objects), the exceptions
    its built-in conversions raise, the module-level state (the loaded
    classifier, its feature schema and the JSON files), and the functions
    [default_patient], [load_json], [save_json], [run_future_model] and
    [api_sensor]. Floating-point numbers are IEEE 754 binary64 values,
    the kernel's primitive floats, exactly as Python's [float]. *)

From Stdlib Require Import ZArith String Ascii List Bool Lia Floats.
From stdpp Require Import base option list gmap strings pretty.

Set Warnings "-inexact-float,-register-all".
Local Open Scope Z_scope.

(** ** Python values *)

(** What [json.load] and [request.get_json] produce, and what the
    application builds itself: [None], booleans, integers (unbounded),
    floats, strings, lists and string-keyed dictionaries. *)
Inductive pyval : Type :=
  | VNone
  | VBool (b : bool)
  | VInt (z : Z)
  | VFloat (f : float)
  | VStr (s : string)
  | VList (l : list pyval)
  | VDict (d : gmap string pyval).

(** The exceptions that the modelled code can raise. [ModelError] stands
    for whatever the classifier's [predict_proba] raises on its own. *)
Inductive exn : Type :=
  | TypeError
  | ValueError
  | OverflowError
  | AttributeError
  | ModelError.

Inductive result (A : Type) : Type :=
  | Ok (a : A)
  | Raise (e : exn).
Arguments Ok {A} a.
Arguments Raise {A} e.

#[global] Instance result_ret : MRet result := fun _ a => Ok a.

#[global] Instance result_bind : MBind result := fun _ _ k r =>
  match r with
  | Ok a => k a
  | Raise e => Raise e
  end.

(** Truth value of an object, as [or] and [if] test it. *)
Definition truthy (v : pyval) : bool :=
  match v with
  | VNone => false
  | VBool b => b
  | VInt z => negb (z =? 0)
  | VFloat f => negb (f =? 0)%float
  | VStr s => negb (String.eqb s EmptyString)
  | VList l => match l with [] => false | _ => true end
  | VDict d => negb (bool_decide (d = ∅))
  end.

(** [a or b] *)
Definition py_or (a b : pyval) : pyval := if truthy a then a else b.

(** [d.get(key, default)] on a dictionary. *)
Definition dict_get (d : gmap string pyval) (key : string) (dflt : pyval) : pyval :=
  default dflt (d !! key).

(** [obj.get(key, default)] on an arbitrary object: only dictionaries
    have the method. *)
Definition py_get (obj : pyval) (key : string) (dflt : pyval) : result pyval :=
  match obj with
  | VDict d => Ok (dict_get d key dflt)
  | _ => Raise AttributeError
  end.

(** [table.get(key, default)] where [table] is a literal dictionary with
    string keys and [key] is any object: an unhashable key raises, a
    hashable key that is not a string equals no key of the table. *)
Definition table_get {A : Type} (table : gmap string A) (key : pyval) (dflt : A) : result A :=
  match key with
  | VStr s => Ok (default dflt (table !! s))
  | VList _ | VDict _ => Raise TypeError
  | _ => Ok dflt
  end.

(** [v == s] for a string literal [s]. *)
Definition py_eq_str (v : pyval) (s : string) : bool :=
  match v with
  | VStr s' => String.eqb s' s
  | _ => false
  end.

(** [needle in hay] on strings. *)
Fixpoint str_contains (needle hay : string) : bool :=
  if String.prefix needle hay then true
  else match hay with
       | EmptyString => false
       | String _ rest => str_contains needle rest
       end.

(** ** Numeric conversions *)

(** [float(n)] for an integer: the nearest binary64 value (ties to even),
    [OverflowError] when it is out of range. *)
Definition float_of_int (z : Z) : result float :=
  match binary_normalize prec emax z 0 false with
  | S754_infinity _ => Raise OverflowError
  | sf => Ok (SF2Prim sf)
  end.

(** [int(x)] for a float: truncation towards zero. *)
Definition int_of_float (f : float) : result Z :=
  match Prim2SF f with
  | S754_nan => Raise ValueError
  | S754_infinity _ => Raise OverflowError
  | S754_zero _ => Ok 0
  | S754_finite s m e =>
      let a := Z.shiftl (Z.pos m) e in
      Ok (if s then - a else a)
  end.

(** ** Pages and their failures *)

(** What a view function hands back: a template with its context (the
    rendering itself is Jinja's), or a redirect to an endpoint. *)
Inductive page : Type :=
  | Render (template : string) (context : gmap string pyval)
  | Redirect (endpoint : string).

(** The pages index and slice what the files hold, which adds two
    exceptions to those of the conversions. *)
Inductive failure : Type :=
  | Builtin (e : exn)
  | KeyError
  | IndexError.

Inductive outcome (A : Type) : Type :=
  | Done (a : A)
  | Failed (f : failure).
Arguments Done {A} a.
Arguments Failed {A} f.

(** A runtime that parses no string and prints every float alike: enough
    to evaluate the program on inputs whose numbers are numbers. *)
Definition no_float_of_str : string -> option float := fun _ => None.
Definition no_int_of_str : string -> option Z := fun _ => None.
Definition plain_str_of_float : float -> string := fun _ => "<float>".

Section Runtime.

(** The parsers behind [float(str)] and [int(str)] and the printer behind
    [str(float)] belong to the Python runtime; they are taken as given.
    [None] is a string the parser rejects. *)
Variable float_of_str : string -> option float.
Variable int_of_str : string -> option Z.
Variable str_of_float : float -> string.

(** [float(v)] *)
Definition py_float (v : pyval) : result float :=
  match v with
  | VFloat f => Ok f
  | VInt z => float_of_int z
  | VBool b => Ok (if b then 1 else 0)%float
  | VStr s => match float_of_str s with
              | Some f => Ok f
              | None => Raise ValueError
              end
  | VNone | VList _ | VDict _ => Raise TypeError
  end.

(** [int(v)] *)
Definition py_int (v : pyval) : result Z :=
  match v with
  | VInt z => Ok z
  | VBool b => Ok (if b then 1 else 0)
  | VFloat f => int_of_float f
  | VStr s => match int_of_str s with
              | Some z => Ok z
              | None => Raise ValueError
              end
  | VNone | VList _ | VDict _ => Raise TypeError
  end.

(** [lst.append(x)]: only lists have the method. *)
Definition py_append (lst x : pyval) : result pyval :=
  match lst with
  | VList l => Ok (VList (l ++ [x]))
  | _ => Raise AttributeError
  end.

(** ** Program state *)

(** The classifier as the scorer uses it: the whole expression
    [float(future_model.predict_proba(np.array([vec]))[0][1])], which
    yields the probability of the positive class or raises. *)
Definition classifier : Type := list float -> result float.

(** The module-level variables [future_model] and [FEATURES_FUTURE], the
    JSON documents on disk by path (no entry: the file is missing or
    does not parse), and whether a path can be opened for writing. *)
Record world : Type := World {
  future_model : option classifier;
  FEATURES_FUTURE : list string;
  files : gmap string pyval;
  io_ok : string -> bool
}.

Definition PATIENT_FILE : string := "patient.json".
Definition READINGS_FILE : string := "readings.json".
Definition ATTACKS_FILE : string := "attacks.json".
Definition ALERTS_FILE : string := "alerts.json".

(** Computations that read and write the program state and may raise. *)
Definition M (A : Type) : Type := world -> result A * world.

#[global] Instance M_ret : MRet M := fun _ a w => (Ok a, w).

#[global] Instance M_bind : MBind M := fun _ _ k m w =>
  match m w with
  | (Ok a, w') => k a w'
  | (Raise e, w') => (Raise e, w')
  end.

Definition gets {A : Type} (f : world -> A) : M A := fun w => (Ok (f w), w).

Definition lift {A : Type} (r : result A) : M A := fun w => (r, w).

(** ** Utilities *)

Definition default_patient : pyval :=
  VDict (list_to_map
    [ ("name", VStr "Hari");
      ("age", VInt 21);
      ("gender", VStr "Male");
      ("smoker", VStr "Non-smoker");
      ("allergy_present", VStr "No");
      ("allergy_type", VStr "None");
      ("occupation", VStr "Home/Office") ]).

(** [load_json(path, default)]: a default of [None] stands for the empty
    dictionary, and every failure yields the default. *)
Definition load_json (path : string) (dflt : pyval) : M pyval :=
  let dflt := match dflt with VNone => VDict ∅ | _ => dflt end in
  gets (fun w => default dflt (files w !! path)).

(** [save_json(path, data)]: a failure is printed and swallowed. A path
    that cannot be opened for writing leaves its file as it was; once the
    file is open the document is written whole. *)
Definition save_json (path : string) (data : pyval) : M unit := fun w =>
  if io_ok w path
  then (Ok tt, World (future_model w) (FEATURES_FUTURE w)
                     (<[path := data]> (files w)) (io_ok w))
  else (Ok tt, w).

(** ** ML inference *)

(** The local variables of [run_future_model] that hold the sensor
    features and the patient features. *)
Record sensor_feats : Type := SensorFeats {
  f_hum : float;
  f_temp : float;
  f_mq2 : float;
  f_mq135 : float;
  f_dust : float
}.

Record patient_feats : Type := PatientFeats {
  f_age : float;
  f_smoker_level : float;
  f_allergy_present : float;
  f_allergy_type : float;
  f_occupation_risk : float
}.

Definition smoker_map : gmap string Z :=
  list_to_map [ ("Non-smoker", 0); ("Passive smoker", 1); ("Active smoker", 2) ].

Definition allergy_type_map : gmap string Z :=
  list_to_map [ ("None", 0); ("Dust", 1); ("Pollen", 2); ("Pets", 3); ("Other", 4) ].

Definition occ_map : gmap string Z :=
  list_to_map [ ("Home/Office", 0); ("Outdoor/Traffic", 1); ("Factory/Heavy", 2) ].

(** [smoker_level]: 0 = Non, 1 = Passive, 2 = Active. *)
Definition smoker_level (patient : pyval) : result float :=
  smoker_str ← py_get patient "smoker" (VStr "Non-smoker");
  code ← table_get smoker_map smoker_str 0;
  py_float (VInt code).

(** [allergy_present]: Yes / No. *)
Definition allergy_present (patient : pyval) : result float :=
  allergy_present_str ← py_get patient "allergy_present" (VStr "No");
  mret (if py_eq_str allergy_present_str "Yes" then 1 else 0)%float.

(** [allergy_type]: None / Dust / Pollen / Pets / Other. *)
Definition allergy_type (patient : pyval) : result float :=
  allergy_type_str ← py_get patient "allergy_type" (VStr "None");
  code ← table_get allergy_type_map allergy_type_str 0;
  py_float (VInt code).

(** [occupation_risk]: 0 = Home/Office, 1 = Outdoor/Traffic,
    2 = Factory/Heavy. *)
Definition occupation_risk (patient : pyval) : result float :=
  occupation_str ← py_get patient "occupation" (VStr "Home/Office");
  code ← table_get occ_map occupation_str 0;
  py_float (VInt code).

(** Sensor features, lines 91 to 95. *)
Definition sensor_features (sensor : gmap string pyval) : result sensor_feats :=
  hum ← py_float (dict_get sensor "humidity" (VInt 0));
  temp ← py_float (dict_get sensor "temperature" (VInt 0));
  mq2 ← py_float (dict_get sensor "mq2" (VInt 0));
  mq135 ← py_float (dict_get sensor "mq135" (VInt 0));
  dust ← py_float (dict_get sensor "dust_equiv" (dict_get sensor "dust" (VInt 0)));
  mret (SensorFeats hum temp mq2 mq135 dust).

(** Patient features, lines 98 to 133. *)
Definition patient_features (patient : pyval) : result patient_feats :=
  let patient := py_or patient default_patient in
  age ← (v ← py_get patient "age" (VInt 21); py_float v);
  smoker ← smoker_level patient;
  allergy ← allergy_present patient;
  atype ← allergy_type patient;
  occupation ← occupation_risk patient;
  mret (PatientFeats age smoker allergy atype occupation).

(** The dictionary [feat_map]. *)
Definition feat_map (s : sensor_feats) (p : patient_feats) : gmap string float :=
  list_to_map
    [ ("humidity", f_hum s);
      ("temperature", f_temp s);
      ("mq2", f_mq2 s);
      ("mq135", f_mq135 s);
      ("dust", f_dust s);
      ("age", f_age p);
      ("smoker_level", f_smoker_level p);
      ("allergy_present", f_allergy_present p);
      ("allergy_type", f_allergy_type p);
      ("occupation_risk", f_occupation_risk p) ].

(** [vec = [float(feat_map.get(f, 0.0)) for f in FEATURES_FUTURE]] *)
Definition feature_vector (schema : list string) (s : sensor_feats) (p : patient_feats)
  : list float :=
  (fun f => default 0%float (feat_map s p !! f)) <$> schema.

(** The derived-feature table read as a function of the feature name:
    the ten named features, and 0.0 for every other name. Compared with
    [feat_map] in [feat_map_lookup]. *)
Definition feature_by_name (s : sensor_feats) (p : patient_feats) (name : string) : float :=
  if String.eqb name "humidity" then f_hum s
  else if String.eqb name "temperature" then f_temp s
  else if String.eqb name "mq2" then f_mq2 s
  else if String.eqb name "mq135" then f_mq135 s
  else if String.eqb name "dust" then f_dust s
  else if String.eqb name "age" then f_age p
  else if String.eqb name "smoker_level" then f_smoker_level p
  else if String.eqb name "allergy_present" then f_allergy_present p
  else if String.eqb name "allergy_type" then f_allergy_type p
  else if String.eqb name "occupation_risk" then f_occupation_risk p
  else 0%float.

(** The thresholds on the probability. *)
Definition risk_label (prob : float) : string :=
  if (prob <? 0.35)%float then "LOW RISK"
  else if (prob <? 0.65)%float then "MEDIUM RISK"
  else "HIGH RISK".

Definition run_future_model (sensor : gmap string pyval) (patient : pyval)
  : M (option float * string) :=
  model ← gets future_model;
  schema ← gets FEATURES_FUTURE;
  match model, schema with
  | None, _ | _, [] => mret (None, "UNKNOWN")
  | Some clf, _ :: _ =>
      s ← lift (sensor_features sensor);
      p ← lift (patient_features patient);
      let vec := feature_vector schema s p in
      prob ← lift (clf vec);
      mret (Some prob, risk_label prob)
  end.

(** ** API endpoints *)

(** The sensor fields of a posted payload, lines 180 to 184 of
    [api_sensor]. *)
Record reading_fields : Type := ReadingFields {
  r_temp : float;
  r_hum : float;
  r_mq2 : Z;
  r_mq135 : Z;
  r_dust : float
}.

Definition read_fields (data : pyval) : result reading_fields :=
  temp ← (v ← py_get data "temperature" (VInt 0); py_float v);
  hum ← (v ← py_get data "humidity" (VInt 0); py_float v);
  mq2 ← (v ← py_get data "mq2" (VInt 1); py_int v);
  mq135 ← (v ← py_get data "mq135" (VInt 1); py_int v);
  dust ← (d ← py_get data "dust" (VInt 0);
          v ← py_get data "dust_equiv" d;
          py_float v);
  mret (ReadingFields temp hum mq2 mq135 dust).

(** The dictionary [sensor_dict] handed to the scorer. *)
Definition sensor_dict (r : reading_fields) : gmap string pyval :=
  list_to_map
    [ ("temperature", VFloat (r_temp r));
      ("humidity", VFloat (r_hum r));
      ("mq2", VInt (r_mq2 r));
      ("mq135", VInt (r_mq135 r));
      ("dust_equiv", VFloat (r_dust r)) ].

(** The stored reading. *)
Definition reading_record (timestamp : string) (r : reading_fields) : pyval :=
  VDict (list_to_map
    [ ("timestamp", VStr timestamp);
      ("temperature", VFloat (r_temp r));
      ("humidity", VFloat (r_hum r));
      ("mq2", VInt (r_mq2 r));
      ("mq135", VInt (r_mq135 r));
      ("dust_equiv", VFloat (r_dust r)) ]).

(** The f-string [f"T={temp}, H={hum}, MQ2={mq2}, MQ135={mq135}, Dust={dust}"]. *)
Definition details (r : reading_fields) : string :=
  "T=" +:+ str_of_float (r_temp r) +:+ ", H=" +:+ str_of_float (r_hum r)
  +:+ ", MQ2=" +:+ pretty (r_mq2 r) +:+ ", MQ135=" +:+ pretty (r_mq135 r)
  +:+ ", Dust=" +:+ str_of_float (r_dust r).

Definition attack_record (timestamp : string) (prob : float) (label : string)
    (r : reading_fields) : pyval :=
  VDict (list_to_map
    [ ("timestamp", VStr timestamp);
      ("probability", VFloat prob);
      ("risk_label", VStr label);
      ("details", VStr (details r)) ]).

Definition alert_record (timestamp : string) (r : reading_fields) : pyval :=
  VDict (list_to_map
    [ ("timestamp", VStr timestamp);
      ("message", VStr "HIGH Immediate Asthma Risk Detected!");
      ("details", VStr (details r)) ]).

(** Lines 213 to 230: log only HIGH RISK as attack and alert. *)
Definition log_high_risk (timestamp : string) (prob : option float) (label : string)
    (r : reading_fields) : M unit :=
  match prob with
  | Some p =>
      if str_contains "HIGH" label then
        attacks ← load_json ATTACKS_FILE (VList []);
        attacks ← lift (py_append attacks (attack_record timestamp p label r));
        _ ← save_json ATTACKS_FILE attacks;
        alerts ← load_json ALERTS_FILE (VList []);
        alerts ← lift (py_append alerts (alert_record timestamp r));
        save_json ALERTS_FILE alerts
      else mret tt
  | None => mret tt
  end.

Definition response (timestamp : string) (prob : option float) (label : string) : pyval :=
  VDict (list_to_map
    [ ("status", VStr "ok");
      ("timestamp", VStr timestamp);
      ("probability", from_option VFloat VNone prob);
      ("label", VStr label) ]).

(** [api_sensor]: [body] is the decoded request body, [timestamp] the
    clock reading taken at line 186. *)
Definition api_sensor (timestamp : string) (body : pyval) : M pyval :=
  let data := py_or body (VDict ∅) in
  r ← lift (read_fields data);
  readings ← load_json READINGS_FILE (VList []);
  readings ← lift (py_append readings (reading_record timestamp r));
  _ ← save_json READINGS_FILE readings;
  patient ← load_json PATIENT_FILE default_patient;
  '(prob, label) ← run_future_model (sensor_dict r) patient;
  _ ← log_high_risk timestamp prob label r;
  mret (response timestamp prob label).

(** ** The loader of the model *)

(** Lines 64 to 72: [model_artifact] and [features_artifact] are what
    [joblib.load] and [json.load] return, [None] when the call raises.
    One failure resets both variables. *)
Definition load_future_model (model_artifact : option classifier)
    (features_artifact : option (list string)) : option classifier * list string :=
  match model_artifact, features_artifact with
  | Some model, Some features => (Some model, features)
  | _, _ => (None, [])
  end.

(** The state when the first request arrives. *)
Definition startup (model_artifact : option classifier)
    (features_artifact : option (list string))
    (disk : gmap string pyval) (io : string -> bool) : world :=
  World (load_future_model model_artifact features_artifact).1
        (load_future_model model_artifact features_artifact).2 disk io.

(** ** The test endpoint *)

Definition predict_response (prob : option float) (label : string) : pyval :=
  VDict (list_to_map
    [ ("probability", from_option VFloat VNone prob);
      ("label", VStr label) ]).

Definition predict_once (body : pyval) : M pyval :=
  let data := py_or body (VDict ∅) in
  r ← lift (read_fields data);
  patient ← load_json PATIENT_FILE default_patient;
  '(prob, label) ← run_future_model (sensor_dict r) patient;
  mret (predict_response prob label).

(** ** Web pages *)

Definition handler (A : Type) : Type := world -> outcome A * world.

#[global] Instance handler_ret : MRet handler := fun _ a w => (Done a, w).

#[global] Instance handler_bind : MBind handler := fun _ _ k m w =>
  match m w with
  | (Done a, w') => k a w'
  | (Failed f, w') => (Failed f, w')
  end.

Definition of_M {A : Type} (m : M A) : handler A := fun w =>
  match m w with
  | (Ok a, w') => (Done a, w')
  | (Raise e, w') => (Failed (Builtin e), w')
  end.

Definition of_outcome {A : Type} (o : outcome A) : handler A := fun w => (o, w).

(** The characters of a string, each a string of length one (a character
    of the model stands for a character of the Python string). *)
Definition py_chars (s : string) : list pyval :=
  (fun c => VStr (String c EmptyString)) <$> list_ascii_of_string s.

(** [v[-1]] *)
Definition py_index_last (v : pyval) : outcome pyval :=
  match v with
  | VList l => from_option Done (Failed IndexError) (last l)
  | VStr s => from_option Done (Failed IndexError) (last (py_chars s))
  | VDict _ => Failed KeyError
  | VNone | VBool _ | VInt _ | VFloat _ => Failed (Builtin TypeError)
  end.

(** [len(v)] *)
Definition py_len (v : pyval) : outcome nat :=
  match v with
  | VList l => Done (length l)
  | VStr s => Done (String.length s)
  | VDict d => Done (size d)
  | VNone | VBool _ | VInt _ | VFloat _ => Failed (Builtin TypeError)
  end.

(** [obj[key] = v] for a string key. *)
Definition py_setitem (obj : pyval) (key : string) (v : pyval) : result pyval :=
  match obj with
  | VDict d => Ok (VDict (<[key := v]> d))
  | _ => Raise TypeError
  end.

(** The dictionary [sensor_dict] that [dashboard] builds from the latest
    reading, lines 276 to 282. *)
Definition dashboard_sensor_dict (latest : pyval) : result (gmap string pyval) :=
  temperature ← py_get latest "temperature" (VInt 0);
  humidity ← py_get latest "humidity" (VInt 0);
  mq2 ← py_get latest "mq2" (VInt 0);
  mq135 ← py_get latest "mq135" (VInt 0);
  dust ← py_get latest "dust" (VInt 0);
  dust_equiv ← py_get latest "dust_equiv" dust;
  mret (list_to_map
    [ ("temperature", temperature);
      ("humidity", humidity);
      ("mq2", mq2);
      ("mq135", mq135);
      ("dust_equiv", dust_equiv) ] : gmap string pyval).

Definition patient_profile : M page :=
  patient ← load_json PATIENT_FILE default_patient;
  mret (Render "profile.html" (list_to_map [ ("patient", patient) ])).

(** [request.form.get(key, default)]: a submitted field is a string. *)
Definition form_get (form : gmap string string) (key : string) (dflt : pyval) : pyval :=
  from_option VStr dflt (form !! key).

(** [patient[key] = request.form.get(key, patient.get(key, default))] *)
Definition update_field (form : gmap string string) (key : string) (dflt : pyval)
    (patient : pyval) : result pyval :=
  old ← py_get patient key dflt;
  py_setitem patient key (form_get form key old).

(** Lines 316 to 319: the age, kept when the submitted text is no
    integer. Only [ValueError] is caught. *)
Definition update_age (form : gmap string string) (patient : pyval) : result pyval :=
  old ← py_get patient "age" (VInt 21);
  match py_int (form_get form "age" old) with
  | Ok age => py_setitem patient "age" (VInt age)
  | Raise ValueError =>
      kept ← py_get patient "age" (VInt 21);
      py_setitem patient "age" kept
  | Raise e => Raise e
  end.

(** Lines 315 to 331: the profile after the form is applied. *)
Definition apply_form (form : gmap string string) (patient : pyval) : result pyval :=
  patient ← update_field form "name" (VStr "Hari") patient;
  patient ← update_age form patient;
  patient ← update_field form "gender" (VStr "Male") patient;
  patient ← update_field form "smoker" (VStr "Non-smoker") patient;
  patient ← update_field form "allergy_present" (VStr "No") patient;
  patient ← update_field form "allergy_type" (VStr "None") patient;
  update_field form "occupation" (VStr "Home/Office") patient.

(** [update_profile]: [post] is the submitted form of a POST request,
    [None] for a GET request. *)
Definition update_profile (post : option (gmap string string)) : M page :=
  patient ← load_json PATIENT_FILE default_patient;
  match post with
  | Some form =>
      patient ← lift (apply_form form patient);
      _ ← save_json PATIENT_FILE patient;
      mret (Redirect "patient_profile")
  | None =>
      mret (Render "update_profile.html" (list_to_map [ ("patient", patient) ]))
  end.

Definition alerts_page : M page :=
  alerts ← load_json ALERTS_FILE (VList []);
  mret (Render "alerts.html" (list_to_map [ ("alerts", alerts) ])).

(** ** Pages that print and iterate *)

Section Pages.

(** More of the Python runtime, taken as given: [str] of a list or a
    dictionary, [datetime.fromisoformat(s).strftime("%H:%M:%S")] ([None]
    when the string is no ISO date), the keys of a decoded JSON object in
    the order of the document, which the finite map does not record, and
    the exception of a dictionary sliced by [d[-300:]]: [TypeError] up to
    Python 3.11, [KeyError] from 3.12 on. *)
Variable str_of_container : pyval -> string.
Variable clock_of_iso : string -> option string.
Variable dict_keys : gmap string pyval -> list string.
Variable dict_slice_failure : failure.

(** [str(v)], also what an f-string prints. *)
Definition py_str (v : pyval) : string :=
  match v with
  | VStr s => s
  | VNone => "None"
  | VBool b => if b then "True" else "False"
  | VInt z => pretty z
  | VFloat f => str_of_float f
  | VList _ | VDict _ => str_of_container v
  end.

(** [v[-n:]], for [n] positive. *)
Definition py_slice_last (n : nat) (v : pyval) : outcome pyval :=
  match v with
  | VList l => Done (VList (drop (length l - n) l))
  | VStr s => Done (VStr (string_of_list_ascii
                            (drop (String.length s - n) (list_ascii_of_string s))))
  | VDict _ => Failed dict_slice_failure
  | VNone | VBool _ | VInt _ | VFloat _ => Failed (Builtin TypeError)
  end.

(** The items a [for] loop visits. *)
Definition py_iter (v : pyval) : outcome (list pyval) :=
  match v with
  | VList l => Done l
  | VStr s => Done (py_chars s)
  | VDict d => Done (VStr <$> dict_keys d)
  | VNone | VBool _ | VInt _ | VFloat _ => Failed (Builtin TypeError)
  end.

(** [list(reversed(v))]; a dictionary is reversible from Python 3.8 on. *)
Definition py_reversed (v : pyval) : result pyval :=
  match v with
  | VList l => Ok (VList (rev l))
  | VStr s => Ok (VList (rev (py_chars s)))
  | VDict d => Ok (VList (VStr <$> rev (dict_keys d)))
  | VNone | VBool _ | VInt _ | VFloat _ => Raise TypeError
  end.

(** The f-string of lines 289 to 293. *)
Definition dashboard_details (sd : gmap string pyval) : string :=
  "T=" +:+ py_str (dict_get sd "temperature" VNone)
  +:+ ", H=" +:+ py_str (dict_get sd "humidity" VNone)
  +:+ ", MQ2=" +:+ py_str (dict_get sd "mq2" VNone)
  +:+ ", MQ135=" +:+ py_str (dict_get sd "mq135" VNone)
  +:+ ", Dust=" +:+ py_str (dict_get sd "dust_equiv" VNone).

(** Lines 274 to 294: the assessment of the latest reading. *)
Definition latest_attack_of (latest patient : pyval) : M pyval :=
  model ← gets future_model;
  if truthy latest && bool_decide (is_Some model) then
    sd ← lift (dashboard_sensor_dict latest);
    '(prob, label) ← run_future_model sd patient;
    match prob with
    | Some p =>
        timestamp ← lift (py_get latest "timestamp" (VStr ""));
        mret (VDict (list_to_map
          [ ("timestamp", timestamp);
            ("probability", VFloat p);
            ("risk_label", VStr label);
            ("details", VStr (dashboard_details sd)) ]))
    | None => mret VNone
    end
  else mret VNone.

Definition dashboard : handler page :=
  readings ← of_M (load_json READINGS_FILE (VList []));
  latest ← of_outcome (if truthy readings then py_index_last readings else Done VNone);
  patient ← of_M (load_json PATIENT_FILE default_patient);
  latest_attack ← of_M (latest_attack_of latest patient);
  mret (Render "dashboard.html"
          (list_to_map
             [ ("latest", latest);
               ("latest_attack", latest_attack);
               ("patient", patient) ])).

Definition attack_history : M page :=
  attacks ← load_json ATTACKS_FILE (VList []);
  attacks ← lift (py_reversed attacks);
  mret (Render "attack_history.html" (list_to_map [ ("attacks", attacks) ])).

(** Lines 363 to 367: the time of day of a timestamp, or the timestamp
    as it is when it is no ISO date. *)
Definition reading_time (ts : pyval) : string :=
  default (py_str ts) (clock_of_iso (py_str ts)).

(** The body of the loop of [graphs], lines 362 to 370, on one reading. *)
Definition graph_row (r : pyval) : result pyval :=
  ts ← py_get r "timestamp" (VStr "");
  r ← py_setitem r "time" (VStr (reading_time ts));
  match r with
  | VDict d =>
      if bool_decide (is_Some (d !! "dust_equiv")) then mret r
      else py_setitem r "dust_equiv" (dict_get d "dust" (VInt 0))
  | _ => Raise TypeError
  end.

(** The loop itself: it stops at the first reading that raises. *)
Fixpoint graph_rows (items : list pyval) : result (list pyval) :=
  match items with
  | [] => mret []
  | r :: rest =>
      r' ← graph_row r;
      rest' ← graph_rows rest;
      mret (r' :: rest')
  end.

Definition graphs : handler page :=
  readings ← of_M (load_json READINGS_FILE (VList []));
  n ← of_outcome (py_len readings);
  readings ← of_outcome (if bool_decide (300 < n)%nat
                         then py_slice_last 300 readings
                         else Done readings);
  items ← of_outcome (py_iter readings);
  rows ← of_M (lift (graph_rows items));
  mret (Render "graphs.html"
          (list_to_map
             [ ("readings", match readings with
                            | VList _ => VList rows
                            | _ => readings
                            end) ])).

End Pages.

(** ** Sample inputs *)

(** A payload as the ESP8266 posts it, without the gas fields. *)
Definition sample_payload : gmap string pyval :=
  list_to_map [ ("temperature", VFloat 30.2); ("humidity", VInt 60) ].

Definition sample_sensor : gmap string pyval :=
  list_to_map [ ("mq2", VInt 7); ("humidity", VFloat 55.5); ("dust", VFloat 12) ].

Definition sample_patient : gmap string pyval :=
  list_to_map [ ("age", VInt 40); ("smoker", VStr "Active smoker") ].

Definition sample_default_fields : gmap string pyval :=
  list_to_map
    [ ("age", VInt 63);
      ("smoker", VStr "Non-smoker");
      ("allergy_present", VStr "No");
      ("allergy_type", VStr "None");
      ("occupation", VStr "Home/Office") ].

(** A state whose classifier answers [prob] to every vector, with the
    schema mq2, age, no file on disk and every path writable. *)
Definition sample_world (prob : float) : world :=
  World (Some (fun _ => Ok prob)) ["mq2"; "age"] ∅ (fun _ => true).

(** More of the runtime for the samples: a parser that knows one number,
    a printer that prints every container alike, no clock, and the keys
    in the order of the map. *)
Definition sample_int_of_str : string -> option Z :=
  fun s => if String.eqb s "35" then Some 35 else None.
Definition plain_str_of_container : pyval -> string := fun _ => "<object>".
Definition no_clock_of_iso : string -> option string := fun _ => None.
Definition map_dict_keys : gmap string pyval -> list string :=
  fun d => (map_to_list d).*1.

(** The fields of [default_patient]. *)
Definition default_profile_fields : gmap string pyval :=
  list_to_map
    [ ("name", VStr "Hari");
      ("age", VInt 21);
      ("gender", VStr "Male");
      ("smoker", VStr "Non-smoker");
      ("allergy_present", VStr "No");
      ("allergy_type", VStr "None");
      ("occupation", VStr "Home/Office") ].

(** A stored reading from a sensor that reports [dust]. *)
Definition sample_reading : pyval :=
  VDict (list_to_map
    [ ("timestamp", VStr "2024-05-01T09:00:00");
      ("temperature", VFloat 29.5);
      ("humidity", VFloat 61);
      ("mq2", VInt 1);
      ("mq135", VInt 1);
      ("dust", VFloat 80) ]).

Definition sample_attack : pyval :=
  VDict (list_to_map
    [ ("timestamp", VStr "2024-05-01T09:00:00");
      ("probability", VFloat 0.9);
      ("risk_label", VStr "HIGH RISK");
      ("details", VStr "T=29.5, H=61.0, MQ2=1, MQ135=1, Dust=80.0") ]).

(** A site with one reading and one attack on disk, whose classifier
    answers 0.7. *)
Definition sample_site : world :=
  World (Some (fun _ => Ok 0.7%float)) ["mq2"; "age"]
        (list_to_map
           [ (READINGS_FILE, VList [sample_reading]);
             (ATTACKS_FILE, VList [sample_attack]) ])
        (fun _ => true).

Definition sample_form : gmap string string :=
  list_to_map [ ("smoker", "Active smoker"); ("age", "35") ].

(** A payload with a gas value beyond the floats. *)
Definition huge_payload : gmap string pyval :=
  list_to_map [ ("mq2", VInt (2 ^ 1024)) ].

(** ** Reading the logs *)

(** What a log holds: the value [load_json(path, [])] yields. *)
Definition log_of (w : world) (path : string) : pyval :=
  default (VList []) (files w !! path).



(** A record of the attack log that tells a high risk: its label is
    HIGH RISK and its probability is not below the upper threshold. *)
Definition high_risk_record (rec : pyval) : Prop :=
  exists (d : gmap string pyval) (p : float),
    rec = VDict d /\
    d !! "risk_label" = Some (VStr "HIGH RISK") /\
    d !! "probability" = Some (VFloat p) /\
    (p <? 0.65)%float = false.

(** A computation that hands back the state it was given, whatever its
    outcome. *)
Definition read_only {A : Type} (m : M A) : Prop :=
  forall w : world, (m w).2 = w.

Definition handler_read_only {A : Type} (m : handler A) : Prop :=
  forall w : world, (m w).2 = w.

(** * Properties *)

(** ** Comparison of binary64 values *)

Lemma SFleb_SFltb_false (x y : spec_float) :
  SFleb x y = true -> SFltb y x = false.
Proof.
  unfold SFleb, SFltb.
  destruct x as [sx|sx| |sx mx ex], y as [sy|sy| |sy my ey]; simpl;
    try destruct sx; try destruct sy; simpl; try done.
  all: rewrite (Z.compare_antisym ey ex);
    destruct (ey ?= ex)%Z; simpl; try done;
    assert (H : Pos.compare_cont Eq mx my = CompOpp (Pos.compare_cont Eq my mx))
      by (symmetry; apply (Pos.compare_cont_antisym my mx Eq));
    rewrite H; destruct (Pos.compare_cont Eq my mx); simpl; done.
Qed.

Lemma SFleb_trans_not_ltb (x y z : spec_float) :
  SFleb x y = true -> SFleb y z = true -> SFltb z x = false.
Proof.
  unfold SFleb, SFltb.
  destruct x as [sx|sx| |sx mx ex], y as [sy|sy| |sy my ey], z as [sz|sz| |sz mz ez];
    simpl; try destruct sx; try destruct sy; try destruct sz; simpl; try done.
  all: change (Pos.compare_cont Eq) with Pos.compare.
  all: destruct (Z.compare_spec ex ey), (Z.compare_spec ey ez), (Z.compare_spec ez ex);
    simpl; try done; try lia.
  all: destruct (Pos.compare_spec mx my), (Pos.compare_spec my mz), (Pos.compare_spec mz mx);
    simpl; try done; try lia.
Qed.

(** [x <= y] excludes [y < x], also for infinities and NaN. *)
Lemma leb_ltb_false (x y : float) :
  (x <=? y)%float = true -> (y <? x)%float = false.
Proof. rewrite leb_spec, ltb_spec. apply SFleb_SFltb_false. Qed.

Lemma risk_label_low (p : float) :
  (p <? 0.35)%float = true -> risk_label p = "LOW RISK".
Proof. unfold risk_label. by intros ->. Qed.

Lemma risk_label_medium (p : float) :
  (0.35 <=? p)%float = true -> (p <? 0.65)%float = true ->
  risk_label p = "MEDIUM RISK".
Proof.
  unfold risk_label. intros Hlo ->. by rewrite (leb_ltb_false _ _ Hlo).
Qed.

Lemma leb_trans_not_ltb (x y z : float) :
  (x <=? y)%float = true -> (y <=? z)%float = true -> (z <? x)%float = false.
Proof. rewrite !leb_spec, ltb_spec. apply SFleb_trans_not_ltb. Qed.

Lemma risk_label_high (p : float) :
  (0.65 <=? p)%float = true -> risk_label p = "HIGH RISK".
Proof.
  unfold risk_label. intros Hhi.
  assert (Hlo : (0.35 <=? 0.65)%float = true) by reflexivity.
  rewrite (leb_trans_not_ltb 0.35 0.65 p Hlo Hhi).
  by rewrite (leb_ltb_false 0.65 p Hhi).
Qed.

(** The label is one of the three risk tiers. *)
Lemma risk_label_cases (p : float) :
  risk_label p = "LOW RISK" \/ risk_label p = "MEDIUM RISK" \/ risk_label p = "HIGH RISK".
Proof.
  unfold risk_label.
  destruct (p <? 0.35)%float; [by left|].
  destruct (p <? 0.65)%float; [right; by left | right; by right].
Qed.

(** ** The scorer, case by case *)

Lemma run_future_model_eq (sensor : gmap string pyval) (patient : pyval) (w : world) :
  run_future_model sensor patient w =
  match future_model w, FEATURES_FUTURE w with
  | None, _ | _, [] => (Ok (None, "UNKNOWN"), w)
  | Some clf, schema =>
      match sensor_features sensor with
      | Raise e => (Raise e, w)
      | Ok s =>
          match patient_features patient with
          | Raise e => (Raise e, w)
          | Ok p =>
              match clf (feature_vector schema s p) with
              | Raise e => (Raise e, w)
              | Ok prob => (Ok (Some prob, risk_label prob), w)
              end
          end
      end
  end.
Proof.
  unfold run_future_model, mbind, M_bind, gets, lift, mret, M_ret.
  destruct (future_model w) as [clf|]; [|done].
  destruct (FEATURES_FUTURE w) as [|f schema]; [done|].
  destruct (sensor_features sensor); [|done].
  destruct (patient_features patient); [|done].
  by destruct (clf _).
Qed.

(** What the scorer can return, and that it leaves the state alone. *)
Lemma run_future_model_Ok
    (sensor : gmap string pyval) (patient : pyval) (w w' : world)
    (prob : option float) (label : string) :
  run_future_model sensor patient w = (Ok (prob, label), w') ->
  w' = w /\
  ((prob = None /\ label = "UNKNOWN") \/
   (exists p : float, prob = Some p /\ label = risk_label p)).
Proof.
  rewrite run_future_model_eq. intros H.
  destruct (future_model w) as [clf|]; [|simplify_eq; by split; [|left]].
  destruct (FEATURES_FUTURE w) as [|f schema]; [simplify_eq; by split; [|left]|].
  destruct (sensor_features sensor); [|done].
  destruct (patient_features patient); [|done].
  destruct (clf _) as [q|]; [|done].
  simplify_eq. split; [done|]. right. by exists q.
Qed.

Lemma run_future_model_state
    (sensor : gmap string pyval) (patient : pyval) (w : world) :
  (run_future_model sensor patient w).2 = w.
Proof.
  rewrite run_future_model_eq.
  destruct (future_model w) as [clf|]; [|done].
  destruct (FEATURES_FUTURE w) as [|f schema]; [done|].
  destruct (sensor_features sensor); [|done].
  destruct (patient_features patient); [|done].
  by destruct (clf _).
Qed.

(** ** Inversion of the feature derivation *)

Lemma bind_Ok {A B : Type} (r : result A) (k : A -> result B) (b : B) :
  r ≫= k = Ok b -> exists a : A, r = Ok a /\ k a = Ok b.
Proof. destruct r as [a|e]; [|done]. intros H. by exists a. Qed.

Ltac res_inv :=
  repeat match goal with
         | H : _ ≫= _ = Ok _ |- _ =>
             apply bind_Ok in H; destruct H as (? & ? & H)
         | H : mret _ = Ok _ |- _ => injection H as <-
         end.

Lemma float_Ok_inj (x y : float) : Ok x = Ok y -> y = x.
Proof. congruence. Qed.

Lemma sensor_features_Ok (sensor : gmap string pyval) (s : sensor_feats) :
  sensor_features sensor = Ok s ->
  py_float (dict_get sensor "humidity" (VInt 0)) = Ok (f_hum s) /\
  py_float (dict_get sensor "temperature" (VInt 0)) = Ok (f_temp s) /\
  py_float (dict_get sensor "mq2" (VInt 0)) = Ok (f_mq2 s) /\
  py_float (dict_get sensor "mq135" (VInt 0)) = Ok (f_mq135 s) /\
  py_float (dict_get sensor "dust_equiv" (dict_get sensor "dust" (VInt 0)))
    = Ok (f_dust s).
Proof. unfold sensor_features. intros H. res_inv. repeat split; assumption. Qed.

Lemma patient_features_Ok (patient : pyval) (p : patient_feats) :
  patient_features patient = Ok p ->
  (exists v : pyval,
     py_get (py_or patient default_patient) "age" (VInt 21) = Ok v /\
     py_float v = Ok (f_age p)) /\
  smoker_level (py_or patient default_patient) = Ok (f_smoker_level p) /\
  allergy_present (py_or patient default_patient) = Ok (f_allergy_present p) /\
  allergy_type (py_or patient default_patient) = Ok (f_allergy_type p) /\
  occupation_risk (py_or patient default_patient) = Ok (f_occupation_risk p).
Proof.
  unfold patient_features. intros H. res_inv.
  split; [eauto|]. repeat split; assumption.
Qed.

(** A dictionary with an entry is truthy: [patient or default_patient()]
    keeps it. *)
Lemma py_or_dict_lookup (d : gmap string pyval) (k : string) (v dflt : pyval) :
  d !! k = Some v -> py_or (VDict d) dflt = VDict d.
Proof.
  intros H. unfold py_or, truthy.
  rewrite bool_decide_eq_false_2; [done|].
  intros ->. by rewrite lookup_empty in H.
Qed.

(** [request.get_json() or {}] on a dictionary is that dictionary. *)
Lemma py_or_dict_empty (d : gmap string pyval) :
  py_or (VDict d) (VDict ∅) = VDict d.
Proof.
  unfold py_or, truthy. case_bool_decide; [by subst | done].
Qed.

(** ** The result of the scorer *)

(** C1. Whatever probability the classifier returns, [run_future_model]
    returns it with the label fixed by the thresholds: below 0.35 LOW
    RISK, from 0.35 (included) to 0.65 (excluded) MEDIUM RISK, from 0.65
    (included) HIGH RISK; so 0.34999 is LOW, 0.35 and 0.64999 are MEDIUM
    and 0.65 is HIGH. *)
Theorem run_future_model_thresholds
    (clf : classifier) (schema : list string) (fs : gmap string pyval)
    (io : string -> bool) (sensor : gmap string pyval) (patient : pyval)
    (s : sensor_feats) (p : patient_feats) (prob : float) :
  schema <> [] ->
  sensor_features sensor = Ok s ->
  patient_features patient = Ok p ->
  clf (feature_vector schema s p) = Ok prob ->
  exists label : string,
    run_future_model sensor patient (World (Some clf) schema fs io)
      = (Ok (Some prob, label), World (Some clf) schema fs io) /\
    ((prob <? 0.35)%float = true -> label = "LOW RISK") /\
    ((0.35 <=? prob)%float = true -> (prob <? 0.65)%float = true ->
       label = "MEDIUM RISK") /\
    ((0.65 <=? prob)%float = true -> label = "HIGH RISK") /\
    (prob = 0.34999%float -> label = "LOW RISK") /\
    (prob = 0.35%float -> label = "MEDIUM RISK") /\
    (prob = 0.64999%float -> label = "MEDIUM RISK") /\
    (prob = 0.65%float -> label = "HIGH RISK").
Proof.
  intros Hschema Hs Hp Hclf. exists (risk_label prob).
  split.
  - rewrite run_future_model_eq. cbn [future_model FEATURES_FUTURE].
    destruct schema as [|f schema]; [done|].
    by rewrite Hs, Hp, Hclf.
  - split; [apply risk_label_low|].
    split; [apply risk_label_medium|].
    split; [apply risk_label_high|].
    repeat split; by intros ->.
Qed.

(** C3. With no classifier loaded, or with an empty schema, the scorer
    returns no probability and the label UNKNOWN for every sensor and
    patient argument; it raises nothing and leaves the state alone. *)
Theorem run_future_model_unknown
    (sensor : gmap string pyval) (patient : pyval) (w : world) :
  future_model w = None \/ FEATURES_FUTURE w = [] ->
  run_future_model sensor patient w = (Ok (None, "UNKNOWN"), w).
Proof.
  intros H. rewrite run_future_model_eq.
  destruct H as [-> | ->]; [done|].
  by destruct (future_model w).
Qed.

(** C10. In every pair the scorer returns, the probability is absent
    exactly when the label is UNKNOWN, and a probability that is present
    comes with one of the labels LOW RISK, MEDIUM RISK, HIGH RISK. *)
Theorem run_future_model_result_shape
    (sensor : gmap string pyval) (patient : pyval) (w w' : world)
    (prob : option float) (label : string) :
  run_future_model sensor patient w = (Ok (prob, label), w') ->
  (prob = None <-> label = "UNKNOWN") /\
  (forall p : float, prob = Some p ->
     label = "LOW RISK" \/ label = "MEDIUM RISK" \/ label = "HIGH RISK").
Proof.
  intros H.
  destruct (run_future_model_Ok _ _ _ _ _ _ H) as [_ [[-> ->] | (q & -> & ->)]].
  - split; [done|]. by intros p.
  - split.
    + split; [done|]. intros Hu.
      destruct (risk_label_cases q) as [E | [E | E]]; rewrite E in Hu; done.
    + intros p _. apply risk_label_cases.
Qed.

(** C8. A call of the scorer leaves the program state as it found it,
    and its result is fixed by the sensor and patient arguments, the
    classifier and the schema: a second call with the same arguments, in
    any state that holds the same classifier and schema, returns the
    same probability and label. *)
Theorem run_future_model_pure
    (sensor : gmap string pyval) (patient : pyval) (w1 w2 : world) :
  future_model w2 = future_model w1 ->
  FEATURES_FUTURE w2 = FEATURES_FUTURE w1 ->
  (run_future_model sensor patient w1).1 = (run_future_model sensor patient w2).1 /\
  (run_future_model sensor patient w1).2 = w1 /\
  (run_future_model sensor patient w2).2 = w2.
Proof.
  intros Hm Hf. split; [|split; apply run_future_model_state].
  rewrite !run_future_model_eq, Hm, Hf.
  destruct (future_model w1) as [clf|]; [|done].
  destruct (FEATURES_FUTURE w1) as [|f schema]; [done|].
  destruct (sensor_features sensor); [|done].
  destruct (patient_features patient); [|done].
  by destruct (clf _).
Qed.

(** ** The feature vector *)

Lemma feat_map_lookup (s : sensor_feats) (p : patient_feats) (name : string) :
  default 0%float (feat_map s p !! name) = feature_by_name s p name.
Proof.
  unfold feat_map, feature_by_name. cbn [list_to_map foldr uncurry fst snd].
  repeat match goal with
         | |- context [String.eqb name ?k] =>
             destruct (String.eqb_spec name k) as [-> | ?];
             [ by rewrite lookup_insert_eq
             | rewrite lookup_insert_ne by done ]
         end.
  by rewrite lookup_empty.
Qed.

Lemma feature_vector_fmap (schema : list string) (s : sensor_feats) (p : patient_feats) :
  feature_vector schema s p = feature_by_name s p <$> schema.
Proof.
  unfold feature_vector. apply list_fmap_ext. intros _ name _. apply feat_map_lookup.
Qed.

(** C2. The vector handed to the classifier has one entry per schema
    name, in schema order: the derived feature of that name, or 0.0 for a
    name outside the ten. With the schema mq2, age, a sensor with mq2 = 7
    and a patient with age = 40, it is [7.0, 40.0], whatever the other
    fields hold as long as the features can be derived from them. *)
Theorem feature_vector_follows_schema
    (clf : classifier) (schema : list string) (fs : gmap string pyval)
    (io : string -> bool) (sensor : gmap string pyval) (patient : pyval)
    (s : sensor_feats) (p : patient_feats) :
  schema <> [] ->
  sensor_features sensor = Ok s ->
  patient_features patient = Ok p ->
  (run_future_model sensor patient (World (Some clf) schema fs io)).1
    = (prob ← clf (feature_by_name s p <$> schema); mret (Some prob, risk_label prob)) /\
  feature_vector schema s p = feature_by_name s p <$> schema /\
  length (feature_vector schema s p) = length schema /\
  (forall (i : nat) (name : string), schema !! i = Some name ->
     feature_vector schema s p !! i = Some (feature_by_name s p name)) /\
  (schema = ["mq2"; "age"] ->
   sensor !! "mq2" = Some (VInt 7) ->
   (exists d : gmap string pyval, patient = VDict d /\ d !! "age" = Some (VInt 40)) ->
   feature_vector schema s p = [7; 40]%float).
Proof.
  intros Hschema Hs Hp.
  split; [|split; [|split; [|split]]].
  - rewrite run_future_model_eq. cbn [future_model FEATURES_FUTURE].
    destruct schema as [|f schema]; [done|].
    rewrite Hs, Hp, feature_vector_fmap.
    by destruct (clf _).
  - apply feature_vector_fmap.
  - unfold feature_vector. apply length_fmap.
  - intros i name Hi. rewrite feature_vector_fmap, list_lookup_fmap, Hi. done.
  - intros -> Hmq2 (d & -> & Hage).
    rewrite feature_vector_fmap. cbn.
    apply sensor_features_Ok in Hs. destruct Hs as (_ & _ & Hs & _).
    apply patient_features_Ok in Hp. destruct Hp as ((v & Hget & Hv) & _).
    unfold dict_get in Hs. rewrite Hmq2 in Hs. cbn in Hs.
    rewrite (py_or_dict_lookup d "age" (VInt 40)) in Hget by done.
    unfold py_get, dict_get in Hget. rewrite Hage in Hget. cbn in Hget.
    injection Hget as <-. cbn in Hv.
    change (float_of_int 7) with (Ok 7%float) in Hs.
    change (float_of_int 40) with (Ok 40%float) in Hv.
    congruence.
Qed.

(** ** Categorical encodings *)

Lemma float_of_int_small :
  float_of_int 0 = Ok 0%float /\ float_of_int 1 = Ok 1%float /\
  float_of_int 2 = Ok 2%float /\ float_of_int 3 = Ok 3%float /\
  float_of_int 4 = Ok 4%float /\ float_of_int 21 = Ok 21%float.
Proof. repeat split; reflexivity. Qed.

Lemma smoker_level_str (d : gmap string pyval) (s : string) :
  d !! "smoker" = Some (VStr s) ->
  smoker_level (py_or (VDict d) default_patient)
    = float_of_int (default 0 (smoker_map !! s)).
Proof.
  intros H. rewrite (py_or_dict_lookup d "smoker" (VStr s)) by done.
  unfold smoker_level, py_get, dict_get. by rewrite H.
Qed.

Lemma allergy_type_str (d : gmap string pyval) (s : string) :
  d !! "allergy_type" = Some (VStr s) ->
  allergy_type (py_or (VDict d) default_patient)
    = float_of_int (default 0 (allergy_type_map !! s)).
Proof.
  intros H. rewrite (py_or_dict_lookup d "allergy_type" (VStr s)) by done.
  unfold allergy_type, py_get, dict_get. by rewrite H.
Qed.

Lemma occupation_risk_str (d : gmap string pyval) (s : string) :
  d !! "occupation" = Some (VStr s) ->
  occupation_risk (py_or (VDict d) default_patient)
    = float_of_int (default 0 (occ_map !! s)).
Proof.
  intros H. rewrite (py_or_dict_lookup d "occupation" (VStr s)) by done.
  unfold occupation_risk, py_get, dict_get. by rewrite H.
Qed.

Lemma smoker_map_unknown (s : string) :
  s <> "Non-smoker" -> s <> "Passive smoker" -> s <> "Active smoker" ->
  smoker_map !! s = None.
Proof.
  intros. unfold smoker_map. cbn [list_to_map foldr uncurry fst snd].
  by rewrite !lookup_insert_ne, lookup_empty by done.
Qed.

Lemma allergy_type_map_unknown (s : string) :
  s <> "None" -> s <> "Dust" -> s <> "Pollen" -> s <> "Pets" -> s <> "Other" ->
  allergy_type_map !! s = None.
Proof.
  intros. unfold allergy_type_map. cbn [list_to_map foldr uncurry fst snd].
  by rewrite !lookup_insert_ne, lookup_empty by done.
Qed.

Lemma occ_map_unknown (s : string) :
  s <> "Home/Office" -> s <> "Outdoor/Traffic" -> s <> "Factory/Heavy" ->
  occ_map !! s = None.
Proof.
  intros. unfold occ_map. cbn [list_to_map foldr uncurry fst snd].
  by rewrite !lookup_insert_ne, lookup_empty by done.
Qed.

Lemma allergy_present_yes (d : gmap string pyval) :
  d !! "allergy_present" = Some (VStr "Yes") ->
  allergy_present (py_or (VDict d) default_patient) = Ok 1%float.
Proof.
  intros H. rewrite (py_or_dict_lookup d "allergy_present" (VStr "Yes")) by done.
  unfold allergy_present, py_get, dict_get. by rewrite H.
Qed.

Lemma allergy_present_else (d : gmap string pyval) :
  d !! "allergy_present" <> Some (VStr "Yes") ->
  allergy_present (py_or (VDict d) default_patient) = Ok 0%float.
Proof.
  intros H. unfold py_or, truthy. case_bool_decide as Hd; [done|].
  unfold allergy_present, py_get, dict_get. cbn [negb mbind result_bind].
  destruct (d !! "allergy_present") as [v|] eqn:E; [|done].
  destruct v as [ | | | |s| | ]; try done. cbn.
  destruct (String.eqb_spec s "Yes") as [-> | ?]; done.
Qed.

(** The three lookup tables only hold codes that [float] converts. *)
Lemma smoker_code_float (s : string) :
  exists f : float, float_of_int (default 0 (smoker_map !! s)) = Ok f.
Proof.
  destruct (decide (s = "Non-smoker")) as [-> | ?]; [by eexists|].
  destruct (decide (s = "Passive smoker")) as [-> | ?]; [by eexists|].
  destruct (decide (s = "Active smoker")) as [-> | ?]; [by eexists|].
  rewrite smoker_map_unknown by done. by eexists.
Qed.

Lemma allergy_type_code_float (s : string) :
  exists f : float, float_of_int (default 0 (allergy_type_map !! s)) = Ok f.
Proof.
  destruct (decide (s = "None")) as [-> | ?]; [by eexists|].
  destruct (decide (s = "Dust")) as [-> | ?]; [by eexists|].
  destruct (decide (s = "Pollen")) as [-> | ?]; [by eexists|].
  destruct (decide (s = "Pets")) as [-> | ?]; [by eexists|].
  destruct (decide (s = "Other")) as [-> | ?]; [by eexists|].
  rewrite allergy_type_map_unknown by done. by eexists.
Qed.

Lemma occupation_code_float (s : string) :
  exists f : float, float_of_int (default 0 (occ_map !! s)) = Ok f.
Proof.
  destruct (decide (s = "Home/Office")) as [-> | ?]; [by eexists|].
  destruct (decide (s = "Outdoor/Traffic")) as [-> | ?]; [by eexists|].
  destruct (decide (s = "Factory/Heavy")) as [-> | ?]; [by eexists|].
  rewrite occ_map_unknown by done. by eexists.
Qed.

(** The patient features exist whenever the age converts and the
    categorical fields that are present hold strings. *)
Lemma patient_features_total (d : gmap string pyval) (a : float) :
  py_float (dict_get d "age" (VInt 21)) = Ok a ->
  (forall (k : string) (v : pyval),
     k ∈ ["smoker"; "allergy_type"; "occupation"] -> d !! k = Some v ->
     exists s : string, v = VStr s) ->
  exists p : patient_feats, patient_features (VDict d) = Ok p /\ f_age p = a.
Proof.
  intros Hage Hstr.
  destruct (decide (d = ∅)) as [-> | Hd].
  - exists (PatientFeats 21 0 0 0 0). split; [reflexivity|].
    cbn in Hage. by apply float_Ok_inj in Hage.
  - assert (Hfield : forall k dflt, k ∈ ["smoker"; "allergy_type"; "occupation"] ->
              exists s : string, dict_get d k (VStr dflt) = VStr s).
    { intros k dflt Hk. unfold dict_get.
      destruct (d !! k) as [v|] eqn:E; [by apply (Hstr k) | by exists dflt]. }
    destruct (Hfield "smoker" "Non-smoker") as [s1 E1]; [set_solver|].
    destruct (Hfield "allergy_type" "None") as [s2 E2]; [set_solver|].
    destruct (Hfield "occupation" "Home/Office") as [s3 E3]; [set_solver|].
    destruct (smoker_code_float s1) as [f1 F1].
    destruct (allergy_type_code_float s2) as [f2 F2].
    destruct (occupation_code_float s3) as [f3 F3].
    unfold patient_features, py_or, truthy.
    rewrite bool_decide_eq_false_2 by done. cbn [negb].
    unfold smoker_level, allergy_present, allergy_type, occupation_risk, py_get.
    cbn [mbind result_bind mret result_ret].
    rewrite Hage, E1, E2, E3.
    cbn [table_get py_float mbind result_bind mret result_ret].
    rewrite F1. cbn [mbind result_bind]. rewrite F2. cbn [mbind result_bind].
    rewrite F3. by eexists.
Qed.

(** C4. The categorical fields of a patient dictionary are encoded as:
    smoker Non-smoker 0, Passive smoker 1, Active smoker 2;
    allergy_present Yes 1, anything else 0; allergy_type None 0, Dust 1,
    Pollen 2, Pets 3, Other 4; occupation Home/Office 0,
    Outdoor/Traffic 1, Factory/Heavy 2; every other string (Vaper, say)
    is encoded as 0 and raises nothing. These are the values of the
    feature columns of the same names. *)
Theorem categorical_encoding (d : gmap string pyval) :
  let patient := py_or (VDict d) default_patient in
  ((d !! "smoker" = Some (VStr "Non-smoker") -> smoker_level patient = Ok 0%float) /\
   (d !! "smoker" = Some (VStr "Passive smoker") -> smoker_level patient = Ok 1%float) /\
   (d !! "smoker" = Some (VStr "Active smoker") -> smoker_level patient = Ok 2%float) /\
   (d !! "smoker" = Some (VStr "Vaper") -> smoker_level patient = Ok 0%float) /\
   (forall s : string, d !! "smoker" = Some (VStr s) ->
      s <> "Non-smoker" -> s <> "Passive smoker" -> s <> "Active smoker" ->
      smoker_level patient = Ok 0%float)) /\
  ((d !! "allergy_present" = Some (VStr "Yes") -> allergy_present patient = Ok 1%float) /\
   (d !! "allergy_present" <> Some (VStr "Yes") -> allergy_present patient = Ok 0%float)) /\
  ((d !! "allergy_type" = Some (VStr "None") -> allergy_type patient = Ok 0%float) /\
   (d !! "allergy_type" = Some (VStr "Dust") -> allergy_type patient = Ok 1%float) /\
   (d !! "allergy_type" = Some (VStr "Pollen") -> allergy_type patient = Ok 2%float) /\
   (d !! "allergy_type" = Some (VStr "Pets") -> allergy_type patient = Ok 3%float) /\
   (d !! "allergy_type" = Some (VStr "Other") -> allergy_type patient = Ok 4%float) /\
   (forall s : string, d !! "allergy_type" = Some (VStr s) ->
      s <> "None" -> s <> "Dust" -> s <> "Pollen" -> s <> "Pets" -> s <> "Other" ->
      allergy_type patient = Ok 0%float)) /\
  ((d !! "occupation" = Some (VStr "Home/Office") -> occupation_risk patient = Ok 0%float) /\
   (d !! "occupation" = Some (VStr "Outdoor/Traffic") -> occupation_risk patient = Ok 1%float) /\
   (d !! "occupation" = Some (VStr "Factory/Heavy") -> occupation_risk patient = Ok 2%float) /\
   (forall s : string, d !! "occupation" = Some (VStr s) ->
      s <> "Home/Office" -> s <> "Outdoor/Traffic" -> s <> "Factory/Heavy" ->
      occupation_risk patient = Ok 0%float)) /\
  (forall p : patient_feats, patient_features (VDict d) = Ok p ->
     smoker_level patient = Ok (f_smoker_level p) /\
     allergy_present patient = Ok (f_allergy_present p) /\
     allergy_type patient = Ok (f_allergy_type p) /\
     occupation_risk patient = Ok (f_occupation_risk p)).
Proof.
  intros patient. subst patient.
  split; [|split; [|split; [|split]]].
  - repeat split.
    1-4: intros H; by rewrite (smoker_level_str d _ H).
    intros s H ? ? ?. by rewrite (smoker_level_str d _ H), smoker_map_unknown.
  - split; [apply allergy_present_yes | apply allergy_present_else].
  - repeat split.
    1-5: intros H; by rewrite (allergy_type_str d _ H).
    intros s H ? ? ? ? ?.
    by rewrite (allergy_type_str d _ H), allergy_type_map_unknown.
  - repeat split.
    1-3: intros H; by rewrite (occupation_risk_str d _ H).
    intros s H ? ? ?. by rewrite (occupation_risk_str d _ H), occ_map_unknown.
  - intros p Hp. apply patient_features_Ok in Hp. tauto.
Qed.

(** ** The default profile *)

Lemma patient_features_absent :
  patient_features VNone = Ok (PatientFeats 21 0 0 0 0).
Proof. reflexivity. Qed.

Lemma patient_features_default :
  patient_features default_patient = Ok (PatientFeats 21 0 0 0 0).
Proof. reflexivity. Qed.

Lemma patient_features_empty :
  patient_features (VDict ∅) = Ok (PatientFeats 21 0 0 0 0).
Proof. reflexivity. Qed.

(** C6. Called without a patient, the scorer works on the default
    profile: age 21, Non-smoker, allergy_present No, allergy_type None,
    occupation Home/Office. With a classifier loaded, a schema that is not
    empty and a sensor whose five features can be derived, the classifier
    is called on the vector built from the sensor features and the patient
    features 21 and four zeros: the entry of a schema column named age is
    21.0, and the entries of the columns smoker_level, allergy_present,
    allergy_type and occupation_risk are 0.0. The result is the label of
    the probability the classifier returns on that vector, or its
    exception. In every state the call without a patient, and the call
    with an empty profile, give what the call with the default profile
    gives. *)
Theorem default_profile_when_absent
    (clf : classifier) (schema : list string) (fs : gmap string pyval)
    (io : string -> bool) (sensor : gmap string pyval) (s : sensor_feats) :
  schema <> [] ->
  sensor_features sensor = Ok s ->
  (run_future_model sensor VNone (World (Some clf) schema fs io)).1
    = (prob ← clf (feature_vector schema s (PatientFeats 21 0 0 0 0));
       mret (Some prob, risk_label prob)) /\
  (run_future_model sensor VNone (World (Some clf) schema fs io)).2
    = World (Some clf) schema fs io /\
  (forall i : nat, schema !! i = Some "age" ->
     feature_vector schema s (PatientFeats 21 0 0 0 0) !! i = Some 21%float) /\
  (forall (i : nat) (name : string), schema !! i = Some name ->
     name = "smoker_level" \/ name = "allergy_present" \/
     name = "allergy_type" \/ name = "occupation_risk" ->
     feature_vector schema s (PatientFeats 21 0 0 0 0) !! i = Some 0%float) /\
  (forall (i : nat) (name : string), schema !! i = Some name ->
     forall p : patient_feats,
       name = "humidity" \/ name = "temperature" \/ name = "mq2" \/
       name = "mq135" \/ name = "dust" ->
       feature_vector schema s (PatientFeats 21 0 0 0 0) !! i
         = feature_vector schema s p !! i) /\
  (forall w : world,
     run_future_model sensor VNone w = run_future_model sensor default_patient w /\
     run_future_model sensor (VDict ∅) w = run_future_model sensor default_patient w) /\
  py_or VNone default_patient = default_patient /\
  py_get default_patient "age" VNone = Ok (VInt 21) /\
  py_get default_patient "smoker" VNone = Ok (VStr "Non-smoker") /\
  py_get default_patient "allergy_present" VNone = Ok (VStr "No") /\
  py_get default_patient "allergy_type" VNone = Ok (VStr "None") /\
  py_get default_patient "occupation" VNone = Ok (VStr "Home/Office") /\
  patient_features VNone = Ok (PatientFeats 21 0 0 0 0).
Proof using Type.
  intros Hschema Hs.
  assert (Hrun : run_future_model sensor VNone (World (Some clf) schema fs io)
                 = match clf (feature_vector schema s (PatientFeats 21 0 0 0 0)) with
                   | Raise e => (Raise e, World (Some clf) schema fs io)
                   | Ok prob => (Ok (Some prob, risk_label prob),
                                 World (Some clf) schema fs io)
                   end).
  { rewrite run_future_model_eq. cbn [future_model FEATURES_FUTURE].
    destruct schema as [|f schema]; [done|].
    by rewrite Hs, patient_features_absent. }
  split; [|split; [|split; [|split; [|split; [|split]]]]].
  - rewrite Hrun. by destruct (clf _).
  - rewrite Hrun. by destruct (clf _).
  - intros i Hi. by rewrite feature_vector_fmap, list_lookup_fmap, Hi.
  - intros i name Hi Hname.
    rewrite feature_vector_fmap, list_lookup_fmap, Hi.
    by destruct Hname as [-> | [-> | [-> | ->]]].
  - intros i name Hi p Hname.
    rewrite !feature_vector_fmap, !list_lookup_fmap, Hi.
    by destruct Hname as [-> | [-> | [-> | [-> | ->]]]].
  - intros w.
    by rewrite !run_future_model_eq, patient_features_absent,
               patient_features_empty, patient_features_default.
  - repeat split; reflexivity.
Qed.

(** C7. For every sensor argument, a patient profile whose categorical
    fields hold their default values (Non-smoker, No, None, Home/Office)
    gives 0 in the columns smoker_level, allergy_present, allergy_type
    and occupation_risk of the feature map, and in every position of the
    vector that the schema gives to one of them. *)
Theorem default_profile_categorical_zero
    (sensor d : gmap string pyval) (s : sensor_feats) (p : patient_feats) :
  d !! "smoker" = Some (VStr "Non-smoker") ->
  d !! "allergy_present" = Some (VStr "No") ->
  d !! "allergy_type" = Some (VStr "None") ->
  d !! "occupation" = Some (VStr "Home/Office") ->
  sensor_features sensor = Ok s ->
  patient_features (VDict d) = Ok p ->
  feat_map s p !! "smoker_level" = Some 0%float /\
  feat_map s p !! "allergy_present" = Some 0%float /\
  feat_map s p !! "allergy_type" = Some 0%float /\
  feat_map s p !! "occupation_risk" = Some 0%float /\
  (forall (schema : list string) (i : nat) (name : string),
     schema !! i = Some name ->
     name ∈ ["smoker_level"; "allergy_present"; "allergy_type"; "occupation_risk"] ->
     feature_vector schema s p !! i = Some 0%float).
Proof.
  intros Hsm Hap Hat Hoc _ Hp.
  apply patient_features_Ok in Hp. destruct Hp as (_ & Hp1 & Hp2 & Hp3 & Hp4).
  rewrite (smoker_level_str d _ Hsm) in Hp1.
  rewrite allergy_present_else in Hp2 by (rewrite Hap; done).
  rewrite (allergy_type_str d _ Hat) in Hp3.
  rewrite (occupation_risk_str d _ Hoc) in Hp4.
  change (float_of_int _) with (Ok 0%float) in Hp1, Hp3, Hp4.
  injection Hp1 as Hp1. injection Hp2 as Hp2.
  injection Hp3 as Hp3. injection Hp4 as Hp4.
  assert (H1 : feat_map s p !! "smoker_level" = Some (f_smoker_level p)) by reflexivity.
  assert (H2 : feat_map s p !! "allergy_present" = Some (f_allergy_present p)) by reflexivity.
  assert (H3 : feat_map s p !! "allergy_type" = Some (f_allergy_type p)) by reflexivity.
  assert (H4 : feat_map s p !! "occupation_risk" = Some (f_occupation_risk p)) by reflexivity.
  rewrite H1, H2, H3, H4, <- Hp1, <- Hp2, <- Hp3, <- Hp4.
  repeat split.
  intros schema i name Hi Hname.
  unfold feature_vector. rewrite list_lookup_fmap, Hi. cbn [fmap option_fmap option_map].
  f_equal.
  repeat (apply elem_of_cons in Hname; destruct Hname as [-> | Hname]);
    [ rewrite H1 | rewrite H2 | rewrite H3 | rewrite H4 | by apply elem_of_nil in Hname ];
    cbn; congruence.
Qed.

(** ** Missing sensor fields *)

Lemma read_fields_Ok (d : gmap string pyval) (r : reading_fields) :
  read_fields (VDict d) = Ok r ->
  py_float (dict_get d "temperature" (VInt 0)) = Ok (r_temp r) /\
  py_float (dict_get d "humidity" (VInt 0)) = Ok (r_hum r) /\
  py_int (dict_get d "mq2" (VInt 1)) = Ok (r_mq2 r) /\
  py_int (dict_get d "mq135" (VInt 1)) = Ok (r_mq135 r) /\
  py_float (dict_get d "dust_equiv" (dict_get d "dust" (VInt 0))) = Ok (r_dust r).
Proof.
  unfold read_fields, py_get. cbn [mbind result_bind].
  intros H. res_inv. repeat split; assumption.
Qed.

(** The scorer reads back the numbers that [api_sensor] stored in
    [sensor_dict]: the three floats as they are, the two gas readings
    converted. *)
Lemma sensor_features_sensor_dict (r : reading_fields) (a b : float) :
  float_of_int (r_mq2 r) = Ok a ->
  float_of_int (r_mq135 r) = Ok b ->
  sensor_features (sensor_dict r)
    = Ok (SensorFeats (r_hum r) (r_temp r) a b (r_dust r)).
Proof.
  intros Ha Hb. unfold sensor_features.
  change (dict_get (sensor_dict r) "humidity" (VInt 0)) with (VFloat (r_hum r)).
  change (dict_get (sensor_dict r) "temperature" (VInt 0)) with (VFloat (r_temp r)).
  change (dict_get (sensor_dict r) "mq2" (VInt 0)) with (VInt (r_mq2 r)).
  change (dict_get (sensor_dict r) "mq135" (VInt 0)) with (VInt (r_mq135 r)).
  change (dict_get (sensor_dict r) "dust_equiv" (dict_get (sensor_dict r) "dust" (VInt 0)))
    with (VFloat (r_dust r)).
  cbn [py_float mbind result_bind]. by rewrite Ha, Hb.
Qed.

(** C5, as the code has it. In [api_sensor] a payload without
    temperature, humidity or dust gets 0 for them and a payload without
    mq2 or mq135 gets 1; the dust value is read from dust_equiv, else
    from dust, else it is 0. The scorer then reads the five numbers back
    unchanged. In [run_future_model] itself a sensor dictionary without
    one of the five keys gets 0 for it, dust with the same fallback. *)
Theorem sensor_field_defaults (d : gmap string pyval) (r : reading_fields) :
  read_fields (py_or (VDict d) (VDict ∅)) = Ok r ->
  ((d !! "temperature" = None -> r_temp r = 0%float) /\
   (d !! "humidity" = None -> r_hum r = 0%float) /\
   (d !! "mq2" = None -> r_mq2 r = 1) /\
   (d !! "mq135" = None -> r_mq135 r = 1) /\
   (forall v : pyval, d !! "dust_equiv" = Some v -> py_float v = Ok (r_dust r)) /\
   (forall v : pyval, d !! "dust_equiv" = None -> d !! "dust" = Some v ->
      py_float v = Ok (r_dust r)) /\
   (d !! "dust_equiv" = None -> d !! "dust" = None -> r_dust r = 0%float)) /\
  (forall s : sensor_feats, sensor_features (sensor_dict r) = Ok s ->
     f_temp s = r_temp r /\ f_hum s = r_hum r /\
     float_of_int (r_mq2 r) = Ok (f_mq2 s) /\
     float_of_int (r_mq135 r) = Ok (f_mq135 s) /\
     f_dust s = r_dust r) /\
  (forall (sensor : gmap string pyval) (s : sensor_feats),
     sensor_features sensor = Ok s ->
     (sensor !! "humidity" = None -> f_hum s = 0%float) /\
     (sensor !! "temperature" = None -> f_temp s = 0%float) /\
     (sensor !! "mq2" = None -> f_mq2 s = 0%float) /\
     (sensor !! "mq135" = None -> f_mq135 s = 0%float) /\
     (forall v : pyval, sensor !! "dust_equiv" = Some v -> py_float v = Ok (f_dust s)) /\
     (forall v : pyval, sensor !! "dust_equiv" = None -> sensor !! "dust" = Some v ->
        py_float v = Ok (f_dust s)) /\
     (sensor !! "dust_equiv" = None -> sensor !! "dust" = None -> f_dust s = 0%float)).
Proof.
  rewrite py_or_dict_empty. intros Hr.
  apply read_fields_Ok in Hr. destruct Hr as (Ht & Hh & H2 & H135 & Hd).
  unfold dict_get in *.
  split; [|split].
  - repeat split.
    + intros E. rewrite E in Ht. by apply float_Ok_inj in Ht.
    + intros E. rewrite E in Hh. by apply float_Ok_inj in Hh.
    + intros E. rewrite E in H2. cbn in H2. congruence.
    + intros E. rewrite E in H135. cbn in H135. congruence.
    + intros v E. by rewrite E in Hd.
    + intros v E E'. by rewrite E, E' in Hd.
    + intros E E'. rewrite E, E' in Hd. by apply float_Ok_inj in Hd.
  - intros s Hs. apply sensor_features_Ok in Hs.
    destruct Hs as (Hh' & Ht' & H2' & H135' & Hd').
    change (dict_get (sensor_dict r) "humidity" (VInt 0)) with (VFloat (r_hum r)) in Hh'.
    change (dict_get (sensor_dict r) "temperature" (VInt 0)) with (VFloat (r_temp r)) in Ht'.
    change (dict_get (sensor_dict r) "mq2" (VInt 0)) with (VInt (r_mq2 r)) in H2'.
    change (dict_get (sensor_dict r) "mq135" (VInt 0)) with (VInt (r_mq135 r)) in H135'.
    change (dict_get (sensor_dict r) "dust_equiv" (dict_get (sensor_dict r) "dust" (VInt 0)))
      with (VFloat (r_dust r)) in Hd'.
    cbn in Hh', Ht', H2', H135', Hd'.
    repeat split; congruence.
  - intros sensor s Hs. apply sensor_features_Ok in Hs.
    destruct Hs as (Hh' & Ht' & H2' & H135' & Hd').
    unfold dict_get in *.
    repeat split.
    + intros E. rewrite E in Hh'. by apply float_Ok_inj in Hh'.
    + intros E. rewrite E in Ht'. by apply float_Ok_inj in Ht'.
    + intros E. rewrite E in H2'. by apply float_Ok_inj in H2'.
    + intros E. rewrite E in H135'. by apply float_Ok_inj in H135'.
    + intros v E. by rewrite E in Hd'.
    + intros v E E'. by rewrite E, E' in Hd'.
    + intros E E'. rewrite E, E' in Hd'. by apply float_Ok_inj in Hd'.
Qed.

(** ** The ingest endpoint *)



Lemma load_json_given (path : string) (dflt : pyval) :
  dflt <> VNone ->
  load_json path dflt = gets (fun w => default dflt (files w !! path)).
Proof. intros Hd. unfold load_json. by destruct dflt. Qed.

Lemma load_json_patient (path : string) :
  load_json path default_patient
  = gets (fun w => default default_patient (files w !! path)).
Proof. reflexivity. Qed.



(** Among the labels of the scorer, only HIGH RISK contains HIGH. *)
Lemma contains_HIGH_risk_label (p : float) :
  str_contains "HIGH" (risk_label p) = true <-> risk_label p = "HIGH RISK".
Proof.
  destruct (risk_label_cases p) as [E | [E | E]]; rewrite E; by split.
Qed.





(** ** Persistence *)

Lemma save_json_unfold (path : string) (data : pyval) (w : world) :
  save_json path data w
  = (Ok tt, if io_ok w path
            then World (future_model w) (FEATURES_FUTURE w)
                       (<[path := data]> (files w)) (io_ok w)
            else w).
Proof using Type. unfold save_json. by destruct (io_ok w path). Qed.

(** ** More on the ingest endpoint *)

(** The state after [log_high_risk], whatever its outcome: only the two
    logs can differ, and the attack log is either as it was or longer by
    one record of this request. *)
Lemma log_high_risk_frame
    (timestamp : string) (prob : option float) (label : string)
    (r : reading_fields) (w : world) :
  let w' := (log_high_risk timestamp prob label r w).2 in
  future_model w' = future_model w /\
  FEATURES_FUTURE w' = FEATURES_FUTURE w /\
  io_ok w' = io_ok w /\
  (forall q : string, q <> ATTACKS_FILE -> q <> ALERTS_FILE ->
     files w' !! q = files w !! q) /\
  (files w' !! ATTACKS_FILE = files w !! ATTACKS_FILE \/
   exists (p : float) (la : list pyval),
     prob = Some p /\ str_contains "HIGH" label = true /\
     log_of w ATTACKS_FILE = VList la /\
     files w' !! ATTACKS_FILE
       = Some (VList (la ++ [attack_record timestamp p label r]))).
Proof using Type.
  unfold log_high_risk.
  destruct prob as [p|]; [|by repeat split; try left].
  destruct (str_contains "HIGH" label) eqn:Hhigh; [|by repeat split; try left].
  unfold mbind, M_bind, load_json, gets, lift.
  fold (log_of w ATTACKS_FILE).
  destruct (log_of w ATTACKS_FILE) as [ | | | | |la| ] eqn:Hla;
    try (cbn; by repeat split; try left).
  cbn [py_append]. rewrite save_json_unfold.
  set (w1 := if io_ok w ATTACKS_FILE then _ else w).
  assert (H1 : future_model w1 = future_model w /\
               FEATURES_FUTURE w1 = FEATURES_FUTURE w /\
               io_ok w1 = io_ok w /\
               (forall q, q <> ATTACKS_FILE -> files w1 !! q = files w !! q) /\
               (files w1 !! ATTACKS_FILE = files w !! ATTACKS_FILE \/
                files w1 !! ATTACKS_FILE
                  = Some (VList (la ++ [attack_record timestamp p label r])))).
  { subst w1. destruct (io_ok w ATTACKS_FILE); cbn.
    - repeat split; try done.
      + intros q Hq. by rewrite lookup_insert_ne.
      + right. by rewrite lookup_insert_eq.
    - repeat split; try done. by left. }
  destruct H1 as (Hm & Hf & Hio & Hother & Hatt).
  destruct (default (VList []) (files w1 !! ALERTS_FILE)) as [ | | | | |lb| ];
    cbn [py_append fst snd].
  1-5,7: (split; [done|]; split; [done|]; split; [done|]; split;
          [ intros q Hq _; by apply Hother
          | destruct Hatt as [Hatt | Hatt]; [by left | right; by exists p, la] ]).
  rewrite save_json_unfold. cbn [snd].
  destruct (io_ok w1 ALERTS_FILE); cbn.
  - split; [done|]. split; [done|]. split; [done|]. split.
    + intros q Hq Hq'. rewrite lookup_insert_ne by done. by apply Hother.
    + rewrite lookup_insert_ne by done.
      destruct Hatt as [Hatt | Hatt]; [by left | right; by exists p, la].
  - split; [done|]. split; [done|]. split; [done|]. split.
    + intros q Hq _. by apply Hother.
    + destruct Hatt as [Hatt | Hatt]; [by left | right; by exists p, la].
Qed.

(** [api_sensor] step by step, for every outcome. *)
Lemma api_sensor_eq (timestamp : string) (body : pyval) (w : world) :
  api_sensor timestamp body w =
  match read_fields (py_or body (VDict ∅)) with
  | Raise e => (Raise e, w)
  | Ok r =>
      match py_append (log_of w READINGS_FILE) (reading_record timestamp r) with
      | Raise e => (Raise e, w)
      | Ok readings =>
          let w1 := (save_json READINGS_FILE readings w).2 in
          match (run_future_model (sensor_dict r)
                   (default default_patient (files w1 !! PATIENT_FILE)) w1).1 with
          | Raise e => (Raise e, w1)
          | Ok (prob, label) =>
              (match (log_high_risk timestamp prob label r w1).1 with
               | Ok _ => Ok (response timestamp prob label)
               | Raise e => Raise e
               end,
               (log_high_risk timestamp prob label r w1).2)
          end
      end
  end.
Proof using Type.
  unfold api_sensor, mbind at 1, M_bind, lift.
  destruct (read_fields _) as [r|e]; [|done].
  unfold mbind at 1, M_bind, load_json at 1, gets. fold (log_of w READINGS_FILE).
  unfold mbind at 1, M_bind, lift.
  destruct (py_append _ _) as [readings|e]; [|done].
  unfold mbind at 1, M_bind. rewrite save_json_unfold. cbn [snd].
  set (w1 := if io_ok w READINGS_FILE then _ else w).
  unfold mbind at 1, M_bind, load_json at 1, gets.
  unfold mbind at 1, M_bind.
  pose proof (run_future_model_state (sensor_dict r)
                (default default_patient (files w1 !! PATIENT_FILE)) w1) as Hst.
  destruct (run_future_model _ _ w1) as [[[prob label]|e] w1']; cbn in Hst; subst w1';
    [|done].
  cbn [fst]. unfold mbind, M_bind, mret, M_ret.
  by destruct (log_high_risk timestamp prob label r w1) as [[[]|e] w2].
Qed.

(** X2. The reading is stored before it is scored: once the payload is
    read and the readings log is a writable list, the log ends with the
    new reading whatever happens next, also when scoring or logging
    raises. *)
Theorem api_sensor_stores_reading
    (timestamp : string) (body : pyval) (w : world)
    (r : reading_fields) (l : list pyval) :
  read_fields (py_or body (VDict ∅)) = Ok r ->
  log_of w READINGS_FILE = VList l ->
  io_ok w READINGS_FILE = true ->
  files (api_sensor timestamp body w).2 !! READINGS_FILE
    = Some (VList (l ++ [reading_record timestamp r])).
Proof using Type.
  intros Hr Hl Hio. rewrite api_sensor_eq, Hr, Hl. cbn [py_append].
  rewrite save_json_unfold, Hio. cbn [snd].
  set (w1 := World _ _ _ _).
  assert (H1 : files w1 !! READINGS_FILE
               = Some (VList (l ++ [reading_record timestamp r])))
    by (subst w1; cbn; by rewrite lookup_insert_eq).
  destruct (run_future_model _ _ w1).1 as [[prob label]|e]; [|done].
  cbn [snd].
  destruct (log_high_risk_frame timestamp prob label r w1) as (_ & _ & _ & Hother & _).
  by rewrite Hother.
Qed.

(** X3. A payload that cannot be read is rejected before anything is
    written: the exception of the failing conversion comes out and the
    state is as it was. A body that is neither empty nor a JSON object
    fails with [AttributeError]. *)
Theorem api_sensor_rejects_payload
    (timestamp : string) (body : pyval) (w : world) (e : exn) :
  read_fields (py_or body (VDict ∅)) = Raise e ->
  api_sensor timestamp body w = (Raise e, w) /\
  ((forall d : gmap string pyval, body <> VDict d) ->
   truthy body = true /\ e = AttributeError).
Proof using Type.
  intros Hr. split; [by rewrite api_sensor_eq, Hr|].
  intros Hnd. unfold py_or in Hr.
  destruct (truthy body) eqn:Ht; [|done].
  split; [done|].
  destruct body as [ | | | | | |d]; [..|by destruct (Hnd d)];
    cbn in Hr; congruence.
Qed.

(** X4. Whatever its outcome, [api_sensor] leaves the classifier, the
    schema and every file other than the three logs as they were; in
    particular it never writes the patient profile. *)
Theorem api_sensor_frame (timestamp : string) (body : pyval) (w : world) :
  future_model (api_sensor timestamp body w).2 = future_model w /\
  FEATURES_FUTURE (api_sensor timestamp body w).2 = FEATURES_FUTURE w /\
  io_ok (api_sensor timestamp body w).2 = io_ok w /\
  (forall q : string,
     q <> READINGS_FILE -> q <> ATTACKS_FILE -> q <> ALERTS_FILE ->
     files (api_sensor timestamp body w).2 !! q = files w !! q) /\
  files (api_sensor timestamp body w).2 !! PATIENT_FILE = files w !! PATIENT_FILE.
Proof using Type.
  assert (H : future_model (api_sensor timestamp body w).2 = future_model w /\
              FEATURES_FUTURE (api_sensor timestamp body w).2 = FEATURES_FUTURE w /\
              io_ok (api_sensor timestamp body w).2 = io_ok w /\
              (forall q : string,
                 q <> READINGS_FILE -> q <> ATTACKS_FILE -> q <> ALERTS_FILE ->
                 files (api_sensor timestamp body w).2 !! q = files w !! q)).
  { rewrite api_sensor_eq.
    destruct (read_fields _) as [r|e]; [|done].
    destruct (py_append _ _) as [readings|e]; [|done].
    rewrite save_json_unfold. cbn [snd].
    set (w1 := if io_ok w READINGS_FILE then _ else w).
    assert (H1 : future_model w1 = future_model w /\
                 FEATURES_FUTURE w1 = FEATURES_FUTURE w /\
                 io_ok w1 = io_ok w /\
                 (forall q, q <> READINGS_FILE -> files w1 !! q = files w !! q)).
    { subst w1. destruct (io_ok w READINGS_FILE); cbn; [|done].
      repeat split. intros q Hq. by rewrite lookup_insert_ne. }
    destruct H1 as (Hm & Hf & Hio & Hother).
    destruct (run_future_model _ _ w1).1 as [[prob label]|e].
    - cbn [snd].
      destruct (log_high_risk_frame timestamp prob label r w1)
        as (Hm' & Hf' & Hio' & Hother' & _).
      split; [congruence|]. split; [congruence|]. split; [congruence|].
      intros q H1 H2 H3. rewrite Hother' by done. by apply Hother.
    - cbn [snd]. repeat split; try done. intros q Hq _ _. by apply Hother. }
  destruct H as (Hm & Hf & Hio & Hother).
  repeat split; try done. by apply Hother.
Qed.

Lemma risk_label_HIGH_inv (p : float) :
  risk_label p = "HIGH RISK" -> (p <? 0.65)%float = false.
Proof using Type.
  unfold risk_label.
  destruct (p <? 0.35)%float eqn:E1; [done|].
  by destruct (p <? 0.65)%float.
Qed.

(** X5. The attack log only ever holds high-risk records: if every
    record in it has the label HIGH RISK and a probability that is not
    below 0.65, the same is true after [api_sensor], whatever its
    outcome, and the log is as it was or longer by one record. *)
Theorem api_sensor_keeps_attack_log_high
    (timestamp : string) (body : pyval) (w : world) (la : list pyval) :
  log_of w ATTACKS_FILE = VList la ->
  Forall high_risk_record la ->
  exists la' : list pyval,
    log_of (api_sensor timestamp body w).2 ATTACKS_FILE = VList la' /\
    Forall high_risk_record la' /\
    (la' = la \/ exists rec : pyval, la' = la ++ [rec]).
Proof using Type.
  intros Hla Hinv.
  assert (Hsame : forall w', files w' !! ATTACKS_FILE = files w !! ATTACKS_FILE ->
            exists la', log_of w' ATTACKS_FILE = VList la' /\
              Forall high_risk_record la' /\
              (la' = la \/ exists rec : pyval, la' = la ++ [rec])).
  { intros w' Hw'. exists la. unfold log_of in *. rewrite Hw'. by repeat split; try left. }
  rewrite api_sensor_eq.
  destruct (read_fields _) as [r|e]; [|by apply Hsame].
  destruct (py_append _ _) as [readings|e]; [|by apply Hsame].
  rewrite save_json_unfold. cbn [snd].
  set (w1 := if io_ok w READINGS_FILE then _ else w).
  assert (H1 : files w1 !! ATTACKS_FILE = files w !! ATTACKS_FILE).
  { subst w1. destruct (io_ok w READINGS_FILE); cbn; [|done].
    by rewrite lookup_insert_ne. }
  pose proof (run_future_model_state (sensor_dict r)
                (default default_patient (files w1 !! PATIENT_FILE)) w1) as Hst.
  destruct (run_future_model _ _ w1) as [[[prob label]|e] w1'] eqn:Hrun;
    cbn in Hst; subst w1'; cbn [fst snd]; [|by apply Hsame].
  destruct (log_high_risk_frame timestamp prob label r w1)
    as (_ & _ & _ & _ & [Hatt | (p & la1 & -> & Hhigh & Hla1 & Hatt)]).
  { apply Hsame. congruence. }
  unfold log_of in Hla1. rewrite H1 in Hla1. fold (log_of w ATTACKS_FILE) in Hla1.
  rewrite Hla in Hla1. injection Hla1 as <-.
  exists (la ++ [attack_record timestamp p label r]).
  unfold log_of. rewrite Hatt. split; [done|]. split; [|right; by eexists].
  apply Forall_app. split; [done|]. apply Forall_singleton.
  destruct (run_future_model_Ok _ _ _ _ _ _ Hrun) as [_ [[? _] | (q & Hq & ->)]];
    [done|].
  injection Hq as <-.
  apply contains_HIGH_risk_label in Hhigh.
  eexists _, p. split; [reflexivity|]. rewrite Hhigh.
  split; [reflexivity|]. split; [reflexivity|]. by apply risk_label_HIGH_inv.
Qed.

(** X6. An empty body ([null], [false], [0], an empty string, list or
    object) is read as the reading with temperature, humidity and dust
    0 and both gas values 1, and handled like the empty object. *)
Theorem api_sensor_empty_body (timestamp : string) (body : pyval) (w : world) :
  truthy body = false ->
  read_fields (py_or body (VDict ∅)) = Ok (ReadingFields 0 0 1 1 0) /\
  api_sensor timestamp body w = api_sensor timestamp (VDict ∅) w.
Proof using Type.
  intros Ht.
  assert (Hor : py_or body (VDict ∅) = VDict ∅) by (unfold py_or; by rewrite Ht).
  split; [by rewrite Hor|].
  unfold api_sensor. by rewrite Hor.
Qed.

(** ** Views that only read *)

Lemma read_only_ret {A : Type} (a : A) : read_only (mret a).
Proof using Type. by intros w. Qed.

Lemma read_only_lift {A : Type} (r : result A) : read_only (lift r).
Proof using Type. by intros w. Qed.

Lemma read_only_gets {A : Type} (f : world -> A) : read_only (gets f).
Proof using Type. by intros w. Qed.

Lemma read_only_load_json (path : string) (dflt : pyval) :
  read_only (load_json path dflt).
Proof using Type. by intros w. Qed.

Lemma read_only_run_future_model (sensor : gmap string pyval) (patient : pyval) :
  read_only (run_future_model sensor patient).
Proof using Type. intros w. apply run_future_model_state. Qed.

Lemma read_only_bind {A B : Type} (m : M A) (k : A -> M B) :
  read_only m -> (forall a : A, read_only (k a)) -> read_only (m ≫= k).
Proof using Type.
  intros Hm Hk w. unfold mbind, M_bind.
  specialize (Hm w). destruct (m w) as [[a|e] w1]; cbn in Hm; subst w1; [|done].
  apply Hk.
Qed.

Lemma handler_read_only_ret {A : Type} (a : A) : handler_read_only (mret a).
Proof using Type. by intros w. Qed.

Lemma handler_read_only_of_outcome {A : Type} (o : outcome A) :
  handler_read_only (of_outcome o).
Proof using Type. by intros w. Qed.

Lemma handler_read_only_of_M {A : Type} (m : M A) :
  read_only m -> handler_read_only (of_M m).
Proof using Type.
  intros Hm w. unfold of_M. specialize (Hm w).
  by destruct (m w) as [[a|e] w1].
Qed.

Lemma handler_read_only_bind {A B : Type} (m : handler A) (k : A -> handler B) :
  handler_read_only m -> (forall a : A, handler_read_only (k a)) ->
  handler_read_only (m ≫= k).
Proof using Type.
  intros Hm Hk w. unfold mbind, handler_bind.
  specialize (Hm w). destruct (m w) as [[a|e] w1]; cbn in Hm; subst w1; [|done].
  apply Hk.
Qed.

Lemma read_only_predict_once (body : pyval) : read_only (predict_once body).
Proof using Type.
  unfold predict_once.
  apply read_only_bind; [apply read_only_lift|]. intros r.
  apply read_only_bind; [apply read_only_load_json|]. intros patient.
  apply read_only_bind; [apply read_only_run_future_model|]. intros [prob label].
  apply read_only_ret.
Qed.


(** ** The endpoints together *)

(** The result of the scorer is fixed by its arguments, the classifier
    and the schema. *)
Lemma run_future_model_indep
    (sensor : gmap string pyval) (patient : pyval) (w1 w2 : world) :
  future_model w2 = future_model w1 ->
  FEATURES_FUTURE w2 = FEATURES_FUTURE w1 ->
  (run_future_model sensor patient w2).1 = (run_future_model sensor patient w1).1.
Proof using Type.
  intros Hm Hf. rewrite !run_future_model_eq, Hm, Hf.
  destruct (future_model w1) as [clf|]; [|done].
  destruct (FEATURES_FUTURE w1) as [|f schema]; [done|].
  destruct (sensor_features sensor); [|done].
  destruct (patient_features patient); [|done].
  by destruct (clf _).
Qed.

Lemma run_future_model_at
    (sensor : gmap string pyval) (patient : pyval) (w1 w2 : world)
    (res : result (option float * string)) :
  future_model w2 = future_model w1 ->
  FEATURES_FUTURE w2 = FEATURES_FUTURE w1 ->
  (run_future_model sensor patient w1).1 = res ->
  run_future_model sensor patient w2 = (res, w2).
Proof using Type.
  intros Hm Hf <-.
  rewrite <- (run_future_model_indep sensor patient w1 w2 Hm Hf).
  rewrite <- (run_future_model_state sensor patient w2) at 3.
  by destruct (run_future_model sensor patient w2).
Qed.

(** A served request, taken apart. *)
Lemma api_sensor_Ok_inv (timestamp : string) (body res : pyval) (w w' : world) :
  api_sensor timestamp body w = (Ok res, w') ->
  exists (r : reading_fields) (l : list pyval) (prob : option float) (label : string),
    read_fields (py_or body (VDict ∅)) = Ok r /\
    log_of w READINGS_FILE = VList l /\
    (run_future_model (sensor_dict r)
       (default default_patient (files w !! PATIENT_FILE)) w).1 = Ok (prob, label) /\
    res = response timestamp prob label /\
    future_model w' = future_model w /\
    FEATURES_FUTURE w' = FEATURES_FUTURE w /\
    files w' !! PATIENT_FILE = files w !! PATIENT_FILE /\
    (io_ok w READINGS_FILE = true ->
     files w' !! READINGS_FILE = Some (VList (l ++ [reading_record timestamp r]))) /\
    log_high_risk timestamp prob label r
      (save_json READINGS_FILE (VList (l ++ [reading_record timestamp r])) w).2
      = (Ok tt, w').
Proof using Type.
  rewrite api_sensor_eq. intros H.
  destruct (read_fields _) as [r|e]; [|done].
  destruct (log_of w READINGS_FILE) as [ | | | | |l| ] eqn:Hl; try done.
  cbn [py_append] in H. cbn zeta in H.
  set (w1 := (save_json READINGS_FILE (VList (l ++ [reading_record timestamp r])) w).2)
    in *.
  assert (H1 : future_model w1 = future_model w /\
               FEATURES_FUTURE w1 = FEATURES_FUTURE w /\
               (forall q, q <> READINGS_FILE -> files w1 !! q = files w !! q) /\
               (io_ok w READINGS_FILE = true ->
                files w1 !! READINGS_FILE
                  = Some (VList (l ++ [reading_record timestamp r])))).
  { subst w1. rewrite save_json_unfold. cbn [snd].
    destruct (io_ok w READINGS_FILE); cbn; [|done].
    repeat split.
    - intros q Hq. by rewrite lookup_insert_ne.
    - intros _. by rewrite lookup_insert_eq. }
  destruct H1 as (Hm & Hf & Hother & Hthis).
  rewrite (Hother PATIENT_FILE) in H by done.
  destruct (run_future_model _ _ w1).1 as [[prob label]|e] eqn:Hrun; [|done].
  destruct (log_high_risk_frame timestamp prob label r w1)
    as (Hm' & Hf' & _ & Hother' & _).
  destruct (log_high_risk timestamp prob label r w1) as [[[]|e] w2] eqn:Hlog; [|done].
  cbn [fst snd] in *. injection H as <- <-.
  exists r, l, prob, label.
  split; [done|]. split; [done|]. split.
  { rewrite <- Hrun. symmetry. by apply run_future_model_indep. }
  split; [done|]. split; [congruence|]. split; [congruence|]. split.
  { rewrite Hother' by done. by apply Hother. }
  split; [|done].
  intros Hio. rewrite Hother' by done. by apply Hthis.
Qed.

(** X8. [predict_once] is a dry run of [api_sensor]: for a request that
    [api_sensor] serves, it returns the same probability and label, asked
    before or after, and stores nothing. *)
Theorem predict_once_agrees_with_api_sensor
    (timestamp : string) (body res : pyval) (w w' : world) :
  api_sensor timestamp body w = (Ok res, w') ->
  exists (prob : option float) (label : string),
    res = response timestamp prob label /\
    predict_once body w = (Ok (predict_response prob label), w) /\
    predict_once body w' = (Ok (predict_response prob label), w').
Proof using Type.
  intros H.
  destruct (api_sensor_Ok_inv _ _ _ _ _ H)
    as (r & l & prob & label & Hr & _ & Hrun & -> & Hm & Hf & Hp & _).
  exists prob, label. split; [done|].
  assert (Hgen : forall w0, future_model w0 = future_model w ->
            FEATURES_FUTURE w0 = FEATURES_FUTURE w ->
            files w0 !! PATIENT_FILE = files w !! PATIENT_FILE ->
            predict_once body w0 = (Ok (predict_response prob label), w0)).
  { intros w0 Hm0 Hf0 Hp0.
    unfold predict_once. rewrite load_json_patient.
    unfold mbind, M_bind, lift, gets.
    rewrite Hr, Hp0.
    by rewrite (run_future_model_at _ _ w w0 _ Hm0 Hf0 Hrun). }
  split; by apply Hgen.
Qed.

(** ** The profile form *)

Lemma dict_get_insert_ne
    (d : gmap string pyval) (k k' : string) (v dflt : pyval) :
  k <> k' -> dict_get (<[k := v]> d) k' dflt = dict_get d k' dflt.
Proof using Type. intros H. unfold dict_get. by rewrite lookup_insert_ne. Qed.

Lemma update_field_dict
    (form : gmap string string) (key : string) (dflt : pyval)
    (d : gmap string pyval) :
  update_field form key dflt (VDict d)
  = Ok (VDict (<[key := form_get form key (dict_get d key dflt)]> d)).
Proof using Type. reflexivity. Qed.

Lemma update_age_dict (form : gmap string string) (d : gmap string pyval) :
  update_age form (VDict d)
  = match py_int (form_get form "age" (dict_get d "age" (VInt 21))) with
    | Ok age => Ok (VDict (<["age" := VInt age]> d))
    | Raise ValueError => Ok (VDict (<["age" := dict_get d "age" (VInt 21)]> d))
    | Raise e => Raise e
    end.
Proof using Type.
  unfold update_age, py_get. cbn [mbind result_bind].
  destruct (py_int _) as [age|[]]; reflexivity.
Qed.

(** The profile that [apply_form] returns, field by field. *)
Lemma apply_form_dict
    (form : gmap string string) (d : gmap string pyval) (patient' : pyval) :
  apply_form form (VDict d) = Ok patient' ->
  exists (d' : gmap string pyval) (age : pyval),
    patient' = VDict d' /\
    d' !! "name" = Some (form_get form "name" (dict_get d "name" (VStr "Hari"))) /\
    d' !! "age" = Some age /\
    (forall z : Z,
       py_int (form_get form "age" (dict_get d "age" (VInt 21))) = Ok z ->
       age = VInt z) /\
    (py_int (form_get form "age" (dict_get d "age" (VInt 21))) = Raise ValueError ->
     age = dict_get d "age" (VInt 21)) /\
    d' !! "gender" = Some (form_get form "gender" (dict_get d "gender" (VStr "Male"))) /\
    d' !! "smoker"
      = Some (form_get form "smoker" (dict_get d "smoker" (VStr "Non-smoker"))) /\
    d' !! "allergy_present"
      = Some (form_get form "allergy_present" (dict_get d "allergy_present" (VStr "No"))) /\
    d' !! "allergy_type"
      = Some (form_get form "allergy_type" (dict_get d "allergy_type" (VStr "None"))) /\
    d' !! "occupation"
      = Some (form_get form "occupation" (dict_get d "occupation" (VStr "Home/Office"))) /\
    (forall k : string,
       k ∉ ["name"; "age"; "gender"; "smoker"; "allergy_present"; "allergy_type";
            "occupation"] ->
       d' !! k = d !! k).
Proof using Type.
  unfold apply_form. rewrite update_field_dict. cbn [mbind result_bind].
  rewrite update_age_dict.
  rewrite dict_get_insert_ne by done.
  set (d1 := <["name" := _]> d).
  intros H.
  assert (Hage : exists age : pyval,
            (forall z, py_int (form_get form "age" (dict_get d "age" (VInt 21))) = Ok z ->
                       age = VInt z) /\
            (py_int (form_get form "age" (dict_get d "age" (VInt 21))) = Raise ValueError ->
             age = dict_get d "age" (VInt 21)) /\
            (update_field form "gender" (VStr "Male") (VDict (<["age" := age]> d1))
             ≫= fun patient =>
                update_field form "smoker" (VStr "Non-smoker") patient
                ≫= fun patient =>
                   update_field form "allergy_present" (VStr "No") patient
                   ≫= fun patient =>
                      update_field form "allergy_type" (VStr "None") patient
                      ≫= fun patient =>
                         update_field form "occupation" (VStr "Home/Office") patient)
            = Ok patient').
  { destruct (py_int _) as [z|e].
    - exists (VInt z). split; [congruence|]. split; [congruence|]. exact H.
    - destruct e; try discriminate H.
      exists (dict_get d "age" (VInt 21)). split; [congruence|]. split; [done|]. exact H. }
  clear H. destruct Hage as (age & Hz & Hv & H).
  subst d1.
  repeat (rewrite update_field_dict in H; cbn [mbind result_bind] in H).
  rewrite !dict_get_insert_ne in H by done.
  injection H as <-.
  eexists _, age. split; [reflexivity|].
  repeat split; try assumption.
  all: try (repeat first [ rewrite lookup_insert_eq; reflexivity
                         | rewrite lookup_insert_ne by done ]; reflexivity).
  intros k Hk.
  repeat (rewrite lookup_insert_ne; [|intros <-; apply Hk; set_solver]).
  reflexivity.
Qed.

Lemma update_profile_post_eq (form : gmap string string) (w : world) :
  update_profile (Some form) w =
  match apply_form form (default default_patient (files w !! PATIENT_FILE)) with
  | Ok patient' =>
      (Ok (Redirect "patient_profile"), (save_json PATIENT_FILE patient' w).2)
  | Raise e => (Raise e, w)
  end.
Proof using Type.
  unfold update_profile, mbind, M_bind, load_json, gets, lift.
  destruct (apply_form _ _) as [patient'|e]; [|reflexivity].
  rewrite save_json_unfold. reflexivity.
Qed.

Lemma apply_form_needs_dict (form : gmap string string) (patient : pyval) :
  (forall d : gmap string pyval, patient <> VDict d) ->
  apply_form form patient = Raise AttributeError.
Proof using Type.
  intros Hnd. destruct patient as [ | | | | | |d]; try reflexivity.
  by destruct (Hnd d).
Qed.

Lemma apply_form_total
    (form : gmap string string) (d : gmap string pyval) :
  (exists z : Z, py_int (form_get form "age" (dict_get d "age" (VInt 21))) = Ok z) \/
  py_int (form_get form "age" (dict_get d "age" (VInt 21))) = Raise ValueError ->
  exists patient' : pyval, apply_form form (VDict d) = Ok patient'.
Proof using Type.
  intros Hage. unfold apply_form.
  rewrite update_field_dict. cbn [mbind result_bind].
  rewrite update_age_dict, dict_get_insert_ne by done.
  destruct Hage as [[z ->] | ->]; cbn [mbind result_bind];
    repeat (rewrite update_field_dict; cbn [mbind result_bind]);
    by eexists.
Qed.

(** X11. A POST to the profile form stores the submitted profile and
    redirects to the profile page: each submitted field replaces the
    stored one, a field that was not submitted keeps its stored value
    (or gets its default), a submitted age that reads as an integer is
    stored as that integer, and keys the form does not know, like every
    other file, stay as they were. *)
Theorem update_profile_stores_form
    (form : gmap string string) (w w' : world) (pg : page)
    (d : gmap string pyval) :
  default default_patient (files w !! PATIENT_FILE) = VDict d ->
  update_profile (Some form) w = (Ok pg, w') ->
  io_ok w PATIENT_FILE = true ->
  pg = Redirect "patient_profile" /\
  (forall q : string, q <> PATIENT_FILE -> files w' !! q = files w !! q) /\
  exists d' : gmap string pyval,
    files w' !! PATIENT_FILE = Some (VDict d') /\
    d' !! "name" = Some (form_get form "name" (dict_get d "name" (VStr "Hari"))) /\
    d' !! "gender" = Some (form_get form "gender" (dict_get d "gender" (VStr "Male"))) /\
    d' !! "smoker"
      = Some (form_get form "smoker" (dict_get d "smoker" (VStr "Non-smoker"))) /\
    d' !! "allergy_present"
      = Some (form_get form "allergy_present" (dict_get d "allergy_present" (VStr "No"))) /\
    d' !! "allergy_type"
      = Some (form_get form "allergy_type" (dict_get d "allergy_type" (VStr "None"))) /\
    d' !! "occupation"
      = Some (form_get form "occupation" (dict_get d "occupation" (VStr "Home/Office"))) /\
    (forall (s : string) (z : Z),
       form !! "age" = Some s -> int_of_str s = Some z -> d' !! "age" = Some (VInt z)) /\
    (forall k : string,
       k ∉ ["name"; "age"; "gender"; "smoker"; "allergy_present"; "allergy_type";
            "occupation"] ->
       d' !! k = d !! k).
Proof using Type.
  intros Hd H Hio. rewrite update_profile_post_eq, Hd in H.
  destruct (apply_form form (VDict d)) as [patient'|e] eqn:Hform; [|discriminate H].
  rewrite save_json_unfold, Hio in H. cbn [snd] in H.
  injection H as <- <-.
  split; [reflexivity|]. split.
  { intros q Hq. cbn. by rewrite lookup_insert_ne. }
  destruct (apply_form_dict form d patient' Hform)
    as (d' & age & -> & Hname & Hage & Hz & _ & Hgender & Hsmoker & Hap & Hat & Hocc
        & Hother).
  exists d'. split; [cbn; by rewrite lookup_insert_eq|].
  repeat (split; [assumption|]).
  split; [|assumption].
  intros s z Hs Hint. rewrite Hage. f_equal. apply Hz.
  unfold form_get. rewrite Hs. cbn. by rewrite Hint.
Qed.

(** X12. A submitted age that does not read as an integer is dropped
    without an error: the profile is saved with the age it had (21 when
    it had none) and with the other submitted fields. *)
Theorem update_profile_bad_age
    (form : gmap string string) (w : world) (d : gmap string pyval) (s : string) :
  default default_patient (files w !! PATIENT_FILE) = VDict d ->
  form !! "age" = Some s ->
  int_of_str s = None ->
  io_ok w PATIENT_FILE = true ->
  exists (w' : world) (d' : gmap string pyval),
    update_profile (Some form) w = (Ok (Redirect "patient_profile"), w') /\
    files w' !! PATIENT_FILE = Some (VDict d') /\
    d' !! "age" = Some (dict_get d "age" (VInt 21)) /\
    d' !! "name" = Some (form_get form "name" (dict_get d "name" (VStr "Hari"))) /\
    d' !! "smoker"
      = Some (form_get form "smoker" (dict_get d "smoker" (VStr "Non-smoker"))).
Proof using Type.
  intros Hd Hs Hint Hio.
  assert (Hage : py_int (form_get form "age" (dict_get d "age" (VInt 21)))
                 = Raise ValueError).
  { unfold form_get. rewrite Hs. cbn. by rewrite Hint. }
  destruct (apply_form_total form d (or_intror Hage)) as [patient' Hform].
  destruct (apply_form_dict form d patient' Hform)
    as (d' & age & -> & Hname & Hage' & _ & Hkept & _ & Hsmoker & _).
  rewrite update_profile_post_eq, Hd, Hform, save_json_unfold, Hio. cbn [snd].
  eexists _, d'. split; [reflexivity|].
  split; [cbn; by rewrite lookup_insert_eq|].
  split; [|by split].
  rewrite Hage'. f_equal. by apply Hkept.
Qed.

(** X13. The scorer sees the submitted profile: after a POST that was
    served and stored, every endpoint loads the new profile, the profile
    page shows it, and the patient features are those the submitted
    smoker, allergy, occupation and age fields encode to. *)
Theorem update_profile_then_score
    (form : gmap string string) (w w' : world) (pg : page) :
  update_profile (Some form) w = (Ok pg, w') ->
  io_ok w PATIENT_FILE = true ->
  exists patient' : pyval,
    load_json PATIENT_FILE default_patient w' = (Ok patient', w') /\
    patient_profile w'
      = (Ok (Render "profile.html" (list_to_map [ ("patient", patient') ])), w') /\
    (forall s : string, form !! "smoker" = Some s ->
       smoker_level (py_or patient' default_patient)
         = float_of_int (default 0 (smoker_map !! s))) /\
    (forall s : string, form !! "allergy_present" = Some s ->
       allergy_present (py_or patient' default_patient)
         = Ok (if String.eqb s "Yes" then 1 else 0)%float) /\
    (forall s : string, form !! "allergy_type" = Some s ->
       allergy_type (py_or patient' default_patient)
         = float_of_int (default 0 (allergy_type_map !! s))) /\
    (forall s : string, form !! "occupation" = Some s ->
       occupation_risk (py_or patient' default_patient)
         = float_of_int (default 0 (occ_map !! s))) /\
    (forall (s : string) (z : Z), form !! "age" = Some s -> int_of_str s = Some z ->
       (py_get (py_or patient' default_patient) "age" (VInt 21) ≫= py_float)
         = float_of_int z).
Proof using Type.
  intros H Hio. rewrite update_profile_post_eq in H.
  destruct (default default_patient (files w !! PATIENT_FILE))
    as [ | | | | | |d] eqn:Hd; try discriminate H.
  destruct (apply_form form (VDict d)) as [patient'|e] eqn:Hform; [|discriminate H].
  rewrite save_json_unfold, Hio in H. cbn [snd] in H.
  injection H as _ <-.
  destruct (apply_form_dict form d patient' Hform)
    as (d' & age & -> & _ & Hage & Hz & _ & _ & Hsmoker & Hap & Hat & Hocc & _).
  exists (VDict d').
  assert (Hload : load_json PATIENT_FILE default_patient
                    (World (future_model w) (FEATURES_FUTURE w)
                       (<[PATIENT_FILE := VDict d']> (files w)) (io_ok w))
                  = (Ok (VDict d'), World (future_model w) (FEATURES_FUTURE w)
                       (<[PATIENT_FILE := VDict d']> (files w)) (io_ok w))).
  { unfold load_json, gets. cbn [files]. by rewrite lookup_insert_eq. }
  split; [exact Hload|]. split.
  { unfold patient_profile, mbind, M_bind. rewrite Hload. reflexivity. }
  split; [|split; [|split; [|split]]].
  - intros s Hs. apply smoker_level_str.
    rewrite Hsmoker. unfold form_get. by rewrite Hs.
  - intros s Hs.
    assert (Hl : d' !! "allergy_present" = Some (VStr s))
      by (rewrite Hap; unfold form_get; by rewrite Hs).
    rewrite (py_or_dict_lookup d' "allergy_present" (VStr s)) by done.
    unfold allergy_present, py_get, dict_get. rewrite Hl. reflexivity.
  - intros s Hs. apply allergy_type_str.
    rewrite Hat. unfold form_get. by rewrite Hs.
  - intros s Hs. apply occupation_risk_str.
    rewrite Hocc. unfold form_get. by rewrite Hs.
  - intros s z Hs Hint.
    assert (Hl : d' !! "age" = Some (VInt z)).
    { rewrite Hage. f_equal. apply Hz. unfold form_get. rewrite Hs. cbn.
      by rewrite Hint. }
    rewrite (py_or_dict_lookup d' "age" (VInt z)) by done.
    unfold py_get, dict_get. rewrite Hl. reflexivity.
Qed.

(** X14. The profile form needs a profile that is a JSON object: when
    the profile file holds anything else (a list, a string, a number,
    [null]), a POST raises [AttributeError] and writes nothing, whatever
    was submitted. *)
Theorem update_profile_needs_dict (form : gmap string string) (w : world) :
  (forall d : gmap string pyval,
     default default_patient (files w !! PATIENT_FILE) <> VDict d) ->
  update_profile (Some form) w = (Raise AttributeError, w).
Proof using Type.
  intros Hnd. rewrite update_profile_post_eq.
  by rewrite (apply_form_needs_dict form _ Hnd).
Qed.

(** ** The attack log after a high risk *)


(** ** Start-up *)

(** X17. Loading is all or nothing: when the model file or the feature
    file fails to load, the application starts with neither, every call
    of the scorer returns UNKNOWN without a probability, and a readable
    payload is still stored and answered with UNKNOWN. *)
Theorem startup_degrades_to_unknown
    (model_artifact : option classifier) (features_artifact : option (list string))
    (disk : gmap string pyval) (io : string -> bool) :
  model_artifact = None \/ features_artifact = None ->
  future_model (startup model_artifact features_artifact disk io) = None /\
  FEATURES_FUTURE (startup model_artifact features_artifact disk io) = [] /\
  (forall (sensor : gmap string pyval) (patient : pyval),
     run_future_model sensor patient (startup model_artifact features_artifact disk io)
     = (Ok (None, "UNKNOWN"), startup model_artifact features_artifact disk io)) /\
  (forall (timestamp : string) (body : pyval) (r : reading_fields) (l : list pyval),
     read_fields (py_or body (VDict ∅)) = Ok r ->
     default (VList []) (disk !! READINGS_FILE) = VList l ->
     api_sensor timestamp body (startup model_artifact features_artifact disk io)
     = (Ok (response timestamp None "UNKNOWN"),
        (save_json READINGS_FILE (VList (l ++ [reading_record timestamp r]))
           (startup model_artifact features_artifact disk io)).2)).
Proof using Type.
  intros Hfail.
  assert (Hload : load_future_model model_artifact features_artifact = (None, [])).
  { unfold load_future_model. destruct Hfail as [-> | ->]; [done|].
    by destruct model_artifact. }
  unfold startup. rewrite Hload. cbn [fst snd].
  split; [reflexivity|]. split; [reflexivity|]. split.
  - intros sensor patient. by rewrite run_future_model_eq.
  - intros timestamp body r l Hr Hl.
    rewrite api_sensor_eq, Hr. unfold log_of. cbn [files]. rewrite Hl.
    cbn [py_append]. cbn zeta.
    rewrite run_future_model_eq.
    rewrite save_json_unfold. cbn [snd io_ok future_model FEATURES_FUTURE files].
    destruct (io READINGS_FILE); reflexivity.
Qed.

(** ** What the score depends on *)

(** For a dictionary, the substitution of the default profile changes
    nothing: the defaults of the five lookups are the default profile. *)
Lemma patient_features_dict (d : gmap string pyval) :
  patient_features (VDict d) =
  (age ← py_float (dict_get d "age" (VInt 21));
   smoker ← smoker_level (VDict d);
   allergy ← allergy_present (VDict d);
   atype ← allergy_type (VDict d);
   occupation ← occupation_risk (VDict d);
   mret (PatientFeats age smoker allergy atype occupation)).
Proof using Type.
  unfold patient_features, py_or, truthy.
  case_bool_decide as Hd; [subst d; reflexivity | reflexivity].
Qed.

Lemma sensor_features_insert (sensor : gmap string pyval) (k : string) (v : pyval) :
  k ∉ ["humidity"; "temperature"; "mq2"; "mq135"; "dust_equiv"; "dust"] ->
  sensor_features (<[k := v]> sensor) = sensor_features sensor.
Proof using Type.
  intros Hk. unfold sensor_features.
  rewrite !dict_get_insert_ne by (intros ->; apply Hk; set_solver).
  reflexivity.
Qed.

Lemma patient_features_insert (d : gmap string pyval) (k : string) (v : pyval) :
  k ∉ ["age"; "smoker"; "allergy_present"; "allergy_type"; "occupation"] ->
  patient_features (VDict (<[k := v]> d)) = patient_features (VDict d).
Proof using Type.
  intros Hk. rewrite !patient_features_dict.
  unfold smoker_level, allergy_present, allergy_type, occupation_risk, py_get.
  rewrite !dict_get_insert_ne by (intros ->; apply Hk; set_solver).
  reflexivity.
Qed.

(** X18. The score depends on nothing but the six sensor keys and the
    five patient keys it reads: adding or changing any other key of the
    sensor dictionary (a timestamp, say) or of the patient dictionary
    (name, gender) changes neither the result nor the exception. *)
Theorem score_ignores_other_keys
    (sensor d : gmap string pyval) (k k' : string) (v v' : pyval) (w : world) :
  k ∉ ["humidity"; "temperature"; "mq2"; "mq135"; "dust_equiv"; "dust"] ->
  k' ∉ ["age"; "smoker"; "allergy_present"; "allergy_type"; "occupation"] ->
  run_future_model (<[k := v]> sensor) (VDict (<[k' := v']> d)) w
  = run_future_model sensor (VDict d) w.
Proof using Type.
  intros Hk Hk'.
  by rewrite !run_future_model_eq, sensor_features_insert, patient_features_insert.
Qed.

(** ** The tiers are ordered *)

Lemma SFleb_ltb_trans (x y z : spec_float) :
  SFleb x y = true -> SFltb y z = true -> SFltb x z = true.
Proof using Type.
  unfold SFleb, SFltb.
  destruct x as [sx|sx| |sx mx ex], y as [sy|sy| |sy my ey], z as [sz|sz| |sz mz ez];
    simpl; try destruct sx; try destruct sy; try destruct sz; simpl; try done.
  all: change (Pos.compare_cont Eq) with Pos.compare.
  all: destruct (Z.compare_spec ex ey), (Z.compare_spec ey ez), (Z.compare_spec ex ez);
    simpl; try done; try lia.
  all: destruct (Pos.compare_spec mx my), (Pos.compare_spec my mz), (Pos.compare_spec mx mz);
    simpl; try done; try lia.
Qed.

Lemma leb_ltb_trans (x y z : float) :
  (x <=? y)%float = true -> (y <? z)%float = true -> (x <? z)%float = true.
Proof using Type. rewrite leb_spec, !ltb_spec. apply SFleb_ltb_trans. Qed.

(** X19. The label never drops when the probability rises: if [p <= q]
    then [q] LOW RISK makes [p] LOW RISK and [p] HIGH RISK makes [q]
    HIGH RISK. *)
Theorem risk_label_monotone (p q : float) :
  (p <=? q)%float = true ->
  (risk_label q = "LOW RISK" -> risk_label p = "LOW RISK") /\
  (risk_label p = "HIGH RISK" -> risk_label q = "HIGH RISK").
Proof using Type.
  intros Hpq.
  assert (Hlt : forall a : float, (q <? a)%float = true -> (p <? a)%float = true)
    by (intros a; by apply leb_ltb_trans).
  unfold risk_label. split.
  - destruct (q <? 0.35)%float eqn:E; [by rewrite (Hlt _ E)|].
    by destruct (q <? 0.65)%float.
  - destruct (p <? 0.35)%float eqn:E1; [done|].
    destruct (p <? 0.65)%float eqn:E2; [done|]. intros _.
    destruct (q <? 0.35)%float eqn:E3; [by rewrite (Hlt _ E3) in E1|].
    destruct (q <? 0.65)%float eqn:E4; [by rewrite (Hlt _ E4) in E2|].
    reflexivity.
Qed.

(** ** A gas value beyond the floats *)

(** X20. [int] accepts an integer of any size but [float] does not: a
    payload whose mq2 or mq135 is too large for a float is read and
    stored, and then, with a classifier loaded, makes the scorer raise
    [OverflowError]. The request fails with the reading already
    written. *)
Theorem api_sensor_gas_overflow
    (timestamp : string) (body : pyval) (w : world)
    (r : reading_fields) (l : list pyval) (clf : classifier) :
  read_fields (py_or body (VDict ∅)) = Ok r ->
  log_of w READINGS_FILE = VList l ->
  future_model w = Some clf ->
  FEATURES_FUTURE w <> [] ->
  float_of_int (r_mq2 r) = Raise OverflowError \/
  float_of_int (r_mq135 r) = Raise OverflowError ->
  api_sensor timestamp body w
  = (Raise OverflowError,
     (save_json READINGS_FILE (VList (l ++ [reading_record timestamp r])) w).2).
Proof using Type.
  intros Hr Hl Hclf Hschema Hover.
  rewrite api_sensor_eq, Hr, Hl. cbn [py_append]. cbn zeta.
  set (w1 := (save_json READINGS_FILE _ w).2).
  assert (H1 : future_model w1 = future_model w /\
               FEATURES_FUTURE w1 = FEATURES_FUTURE w).
  { subst w1. rewrite save_json_unfold. cbn [snd].
    by destruct (io_ok w READINGS_FILE). }
  destruct H1 as [Hm Hf].
  assert (Hsens : sensor_features (sensor_dict r) = Raise OverflowError).
  { unfold sensor_features.
    change (dict_get (sensor_dict r) "humidity" (VInt 0)) with (VFloat (r_hum r)).
    change (dict_get (sensor_dict r) "temperature" (VInt 0)) with (VFloat (r_temp r)).
    change (dict_get (sensor_dict r) "mq2" (VInt 0)) with (VInt (r_mq2 r)).
    change (dict_get (sensor_dict r) "mq135" (VInt 0)) with (VInt (r_mq135 r)).
    cbn [py_float mbind result_bind].
    destruct Hover as [-> | Hover]; [reflexivity|].
    destruct (float_of_int (r_mq2 r)) as [a|e] eqn:E.
    - cbn [mbind result_bind]. rewrite Hover. reflexivity.
    - unfold float_of_int in E.
      destruct (binary_normalize _ _ _ _ _); by simplify_eq. }
  rewrite run_future_model_eq, Hm, Hf, Hclf, Hsens.
  by destruct (FEATURES_FUTURE w).
Qed.

(** ** Posting twice *)

Lemma form_get_idem (form : gmap string string) (key : string) (x : pyval) :
  form_get form key (form_get form key x) = form_get form key x.
Proof using Type. unfold form_get. by destruct (form !! key). Qed.

Lemma update_field_id
    (form : gmap string string) (key : string) (dflt x : pyval)
    (d : gmap string pyval) :
  d !! key = Some (form_get form key x) ->
  update_field form key dflt (VDict d) = Ok (VDict d).
Proof using Type.
  intros H. rewrite update_field_dict. unfold dict_get. rewrite H. cbn [default from_option id].
  rewrite form_get_idem. by rewrite insert_id.
Qed.

Lemma py_int_VInt (z : Z) : py_int (VInt z) = Ok z.
Proof using Type. reflexivity. Qed.

(** X21. Posting the same form twice is the same as posting it once:
    the second POST stores the profile the first one stored. *)
Theorem update_profile_idempotent
    (form : gmap string string) (w w' : world) (pg : page) :
  update_profile (Some form) w = (Ok pg, w') ->
  io_ok w PATIENT_FILE = true ->
  update_profile (Some form) w' = (Ok pg, w').
Proof using Type.
  intros H Hio. rewrite update_profile_post_eq in H.
  destruct (default default_patient (files w !! PATIENT_FILE))
    as [ | | | | | |d] eqn:Hd; try discriminate H.
  destruct (apply_form form (VDict d)) as [patient'|e] eqn:Hform; [|discriminate H].
  rewrite save_json_unfold, Hio in H. cbn [snd] in H.
  injection H as <- <-.
  destruct (apply_form_dict form d patient' Hform)
    as (d' & age & -> & Hname & Hage & Hz & Hv & Hgender & Hsmoker & Hap & Hat & Hocc & _).
  assert (Hagain : apply_form form (VDict d') = Ok (VDict d')).
  { unfold apply_form.
    rewrite (update_field_id form "name" _ _ d' Hname). cbn [mbind result_bind].
    assert (Hage' : update_age form (VDict d') = Ok (VDict d')).
    { rewrite update_age_dict. unfold dict_get at 1. rewrite Hage. cbn [default from_option id].
      unfold apply_form in Hform. rewrite update_field_dict in Hform.
      cbn [mbind result_bind] in Hform.
      rewrite update_age_dict, dict_get_insert_ne in Hform by done.
      unfold form_get in *.
      destruct (form !! "age") as [s|] eqn:Hs; cbn [from_option] in *.
      - destruct (py_int (VStr s)) as [z|e] eqn:Hint.
        + rewrite (Hz z eq_refl) in Hage. by rewrite insert_id.
        + destruct e; try discriminate Hform.
          unfold dict_get. rewrite Hage. cbn [default from_option id]. by rewrite insert_id.
      - destruct (py_int (dict_get d "age" (VInt 21))) as [z|e] eqn:Hint.
        + rewrite (Hz z eq_refl) in *. rewrite py_int_VInt. by rewrite insert_id.
        + destruct e; try discriminate Hform.
          rewrite (Hv eq_refl) in *. rewrite Hint.
          unfold dict_get at 1. rewrite Hage. cbn [default from_option id]. by rewrite insert_id. }
    rewrite Hage'. cbn [mbind result_bind].
    rewrite (update_field_id form "gender" _ _ d' Hgender). cbn [mbind result_bind].
    rewrite (update_field_id form "smoker" _ _ d' Hsmoker). cbn [mbind result_bind].
    rewrite (update_field_id form "allergy_present" _ _ d' Hap). cbn [mbind result_bind].
    rewrite (update_field_id form "allergy_type" _ _ d' Hat). cbn [mbind result_bind].
    apply (update_field_id form "occupation" _ _ d' Hocc). }
  rewrite update_profile_post_eq. cbn [files].
  rewrite lookup_insert_eq. cbn [default from_option id].
  rewrite Hagain, save_json_unfold. cbn [snd io_ok]. rewrite Hio.
  cbn [future_model FEATURES_FUTURE files io_ok].
  by rewrite insert_insert_eq.
Qed.

(** ** The pages *)

Section PagesProperties.

Variable str_of_container : pyval -> string.
Variable clock_of_iso : string -> option string.
Variable dict_keys : gmap string pyval -> list string.
Variable dict_slice_failure : failure.

Lemma read_only_latest_attack_of (latest patient : pyval) :
  read_only (latest_attack_of str_of_container latest patient).
Proof using Type.
  unfold latest_attack_of.
  apply read_only_bind; [apply read_only_gets|]. intros model.
  destruct (truthy latest && bool_decide (is_Some model)); [|apply read_only_ret].
  apply read_only_bind; [apply read_only_lift|]. intros sd.
  apply read_only_bind; [apply read_only_run_future_model|]. intros [[p|] label];
    [|apply read_only_ret].
  apply read_only_bind; [apply read_only_lift|]. intros ts. apply read_only_ret.
Qed.

(** X7. Of all the endpoints only [api_sensor] and a POST to
    [update_profile] write: the dashboard, the graphs, the profile, alerts
    and attack-history pages, the profile form (GET) and [predict_once]
    hand back the state they were given, also when they raise. *)
Theorem views_read_only (w : world) :
  (dashboard str_of_container w).2 = w /\
  (graphs str_of_container clock_of_iso dict_keys dict_slice_failure w).2 = w /\
  (patient_profile w).2 = w /\
  (alerts_page w).2 = w /\
  (attack_history dict_keys w).2 = w /\
  (update_profile None w).2 = w /\
  (forall body : pyval, (predict_once body w).2 = w).
Proof using Type.
  split; [|split; [|split; [|split; [|split; [|split]]]]].
  - revert w. unfold dashboard.
    apply handler_read_only_bind;
      [apply handler_read_only_of_M, read_only_load_json|]. intros readings.
    apply handler_read_only_bind; [apply handler_read_only_of_outcome|]. intros latest.
    apply handler_read_only_bind;
      [apply handler_read_only_of_M, read_only_load_json|]. intros patient.
    apply handler_read_only_bind;
      [apply handler_read_only_of_M, read_only_latest_attack_of|]. intros la.
    apply handler_read_only_ret.
  - revert w. unfold graphs.
    apply handler_read_only_bind;
      [apply handler_read_only_of_M, read_only_load_json|]. intros readings.
    apply handler_read_only_bind; [apply handler_read_only_of_outcome|]. intros n.
    apply handler_read_only_bind; [apply handler_read_only_of_outcome|]. intros rs.
    apply handler_read_only_bind; [apply handler_read_only_of_outcome|]. intros items.
    apply handler_read_only_bind;
      [apply handler_read_only_of_M, read_only_lift|]. intros rows.
    apply handler_read_only_ret.
  - revert w. unfold patient_profile.
    apply read_only_bind; [apply read_only_load_json|]. intros p. apply read_only_ret.
  - revert w. unfold alerts_page.
    apply read_only_bind; [apply read_only_load_json|]. intros p. apply read_only_ret.
  - revert w. unfold attack_history.
    apply read_only_bind; [apply read_only_load_json|]. intros a.
    apply read_only_bind; [apply read_only_lift|]. intros a'. apply read_only_ret.
  - revert w. unfold update_profile.
    apply read_only_bind; [apply read_only_load_json|]. intros p. apply read_only_ret.
  - intros body. apply read_only_predict_once.
Qed.




(** X10. With no reading stored, or with no classifier loaded, the
    dashboard shows the latest reading (if any) without an assessment;
    it does not look into the reading and raises nothing, whatever the
    reading holds. *)
Theorem dashboard_without_assessment (w : world) (l : list pyval) :
  log_of w READINGS_FILE = VList l ->
  l = [] \/ future_model w = None ->
  dashboard str_of_container w =
    (Done (Render "dashboard.html"
             (list_to_map
                [ ("latest", default VNone (last l));
                  ("latest_attack", VNone);
                  ("patient", default default_patient (files w !! PATIENT_FILE)) ])),
     w).
Proof using Type.
  intros Hl Hcase.
  unfold dashboard, mbind at 1, handler_bind, of_M at 1, load_json at 1, gets.
  fold (log_of w READINGS_FILE). rewrite Hl.
  assert (Hlatest : (if truthy (VList l) then py_index_last (VList l) else Done VNone)
                    = Done (default VNone (last l))).
  { destruct l as [|x l]; [done|]. cbn [truthy py_index_last].
    by destruct (last (x :: l)) eqn:E; [|apply last_None in E]. }
  rewrite Hlatest.
  unfold mbind at 1, handler_bind, of_outcome.
  rewrite load_json_patient. unfold mbind at 1, handler_bind, of_M at 1, gets.
  assert (Hla : latest_attack_of str_of_container (default VNone (last l))
                  (default default_patient (files w !! PATIENT_FILE)) w
                = (Ok VNone, w)).
  { unfold latest_attack_of, mbind, M_bind, gets.
    destruct Hcase as [-> | ->]; [reflexivity|].
    rewrite bool_decide_eq_false_2 by (by intros [? ?]).
    rewrite andb_false_r. reflexivity. }
  unfold mbind, handler_bind, of_M. rewrite Hla. reflexivity.
Qed.

(** ** The attack history *)


(** ** The graphs page *)

(** The row that the loop makes of a reading that is a dictionary. *)
Lemma graph_row_dict (d : gmap string pyval) :
  exists d' : gmap string pyval,
    graph_row str_of_container clock_of_iso (VDict d) = Ok (VDict d') /\
    d' !! "time"
      = Some (VStr (reading_time str_of_container clock_of_iso
                      (dict_get d "timestamp" (VStr "")))) /\
    d' !! "dust_equiv" = Some (dict_get d "dust_equiv" (dict_get d "dust" (VInt 0))) /\
    (forall k : string, k <> "time" -> k <> "dust_equiv" -> d' !! k = d !! k).
Proof using Type.
  unfold graph_row, py_get, py_setitem. cbn [mbind result_bind].
  set (t := VStr _).
  case_bool_decide as Hde.
  - exists (<["time" := t]> d). split; [reflexivity|].
    split; [by rewrite lookup_insert_eq|]. split.
    + rewrite lookup_insert_ne in Hde by done. destruct Hde as [x Hx].
      rewrite lookup_insert_ne by done. unfold dict_get. by rewrite Hx.
    + intros k Hk _. by rewrite lookup_insert_ne.
  - exists (<["dust_equiv" := dict_get (<["time" := t]> d) "dust" (VInt 0)]>
              (<["time" := t]> d)).
    split; [reflexivity|].
    split; [by rewrite lookup_insert_ne, lookup_insert_eq|]. split.
    + rewrite lookup_insert_eq. f_equal.
      rewrite lookup_insert_ne in Hde by done.
      apply eq_None_not_Some in Hde.
      unfold dict_get. rewrite Hde. by rewrite lookup_insert_ne.
    + intros k Hk Hk'. by rewrite !lookup_insert_ne.
Qed.

Lemma graph_rows_dicts (items : list pyval) :
  Forall (fun r => exists d : gmap string pyval, r = VDict d) items ->
  exists rows : list pyval,
    graph_rows str_of_container clock_of_iso items = Ok rows /\
    Forall2 (fun r r' => graph_row str_of_container clock_of_iso r = Ok r') items rows.
Proof using Type.
  induction 1 as [|r items [d ->] _ (rows & Hrows & Hall)].
  - exists []. by split.
  - destruct (graph_row_dict d) as (d' & Hrow & _).
    exists (VDict d' :: rows). cbn [graph_rows]. rewrite Hrow, Hrows.
    split; [reflexivity|]. by constructor.
Qed.

(** X16. On a log of readings the graphs page shows the newest 300 (all
    of them when there are fewer), in order. Each shown row is the stored
    reading with a [time] field made from its timestamp and with a
    [dust_equiv] field: its own if it has one, else its [dust], else 0.
    Every other field is as stored. *)
Theorem graphs_shows_newest_readings (w : world) (l : list pyval) :
  log_of w READINGS_FILE = VList l ->
  Forall (fun r => exists d : gmap string pyval, r = VDict d) l ->
  exists rows : list pyval,
    graphs str_of_container clock_of_iso dict_keys dict_slice_failure w
      = (Done (Render "graphs.html" (list_to_map [ ("readings", VList rows) ])), w) /\
    length rows = Nat.min (length l) 300 /\
    (forall (i : nat) (r' : pyval), rows !! i = Some r' ->
       exists d d' : gmap string pyval,
         l !! (length l - length rows + i)%nat = Some (VDict d) /\
         r' = VDict d' /\
         d' !! "time"
      = Some (VStr (reading_time str_of_container clock_of_iso
                      (dict_get d "timestamp" (VStr "")))) /\
         d' !! "dust_equiv"
           = Some (dict_get d "dust_equiv" (dict_get d "dust" (VInt 0))) /\
         (forall k : string, k <> "time" -> k <> "dust_equiv" -> d' !! k = d !! k)).
Proof using Type.
  intros Hl Hdicts.
  set (shown := drop (length l - 300) l).
  assert (Hshown : Forall (fun r => exists d : gmap string pyval, r = VDict d) shown)
    by (by apply Forall_drop).
  destruct (graph_rows_dicts shown Hshown) as (rows & Hrows & Hall).
  assert (Hlen : length rows = Nat.min (length l) 300).
  { rewrite <- (Forall2_length _ _ _ Hall). subst shown. rewrite length_drop. lia. }
  exists rows. split; [|split; [exact Hlen|]].
  - unfold graphs, mbind at 1, handler_bind, of_M at 1, load_json, gets.
    fold (log_of w READINGS_FILE). rewrite Hl.
    unfold mbind at 1, handler_bind, of_outcome at 1. cbn [py_len].
    unfold mbind at 1, handler_bind, of_outcome at 1.
    assert (Hsel : (if bool_decide (300 < length l)%nat
                    then py_slice_last dict_slice_failure 300 (VList l) else Done (VList l))
                   = Done (VList shown)).
    { subst shown. case_bool_decide as Hn; [reflexivity|].
      replace (length l - 300)%nat with 0%nat by lia. reflexivity. }
    rewrite Hsel.
    unfold mbind at 1, handler_bind, of_outcome. cbn [py_iter].
    unfold mbind, handler_bind, of_M, lift. rewrite Hrows. reflexivity.
  - intros i r' Hi.
    destruct (Forall2_lookup_r _ _ _ _ _ Hall Hi) as (r & Hr & Hrow).
    destruct (proj1 (Forall_lookup _ _) Hshown i r Hr) as [d ->].
    destruct (graph_row_dict d) as (d' & Hrow' & Htime & Hdust & Hother).
    rewrite Hrow' in Hrow. injection Hrow as <-.
    exists d, d'. split; [|done].
    subst shown. rewrite lookup_drop in Hr. rewrite <- Hr. f_equal. lia.
Qed.


End PagesProperties.

End Runtime.

(** * The theorems at sample inputs *)

Lemma run_future_model_thresholds_witness :
  exists label : string,
    run_future_model no_float_of_str sample_sensor (VDict sample_patient) (sample_world 0.35)
      = (Ok (Some 0.35%float, label), sample_world 0.35) /\
    label = "MEDIUM RISK".
Proof.
  destruct (run_future_model_thresholds no_float_of_str
              (fun _ => Ok 0.35%float) ["mq2"; "age"] ∅ (fun _ => true)
              sample_sensor (VDict sample_patient)
              (SensorFeats 55.5 0 7 0 12) (PatientFeats 40 2 0 0 0) 0.35%float)
    as (label & Hrun & _ & _ & _ & _ & Hmed & _).
  - discriminate.
  - reflexivity.
  - reflexivity.
  - reflexivity.
  - exists label. split; [exact Hrun | apply Hmed; reflexivity].
Defined.

Lemma feature_vector_follows_schema_witness :
  feature_vector ["mq2"; "age"] (SensorFeats 55.5 0 7 0 12) (PatientFeats 40 2 0 0 0)
    = [7; 40]%float.
Proof.
  destruct (feature_vector_follows_schema no_float_of_str
              (fun _ => Ok 0.5%float) ["mq2"; "age"] ∅ (fun _ => true)
              sample_sensor (VDict sample_patient)
              (SensorFeats 55.5 0 7 0 12) (PatientFeats 40 2 0 0 0))
    as (_ & _ & _ & _ & Hvec).
  - discriminate.
  - reflexivity.
  - reflexivity.
  - apply Hvec; [reflexivity | reflexivity |].
    exists sample_patient. split; reflexivity.
Defined.

Lemma run_future_model_unknown_witness :
  run_future_model no_float_of_str sample_sensor (VDict sample_patient)
    (World None ["mq2"; "age"] ∅ (fun _ => true))
  = (Ok (None, "UNKNOWN"), World None ["mq2"; "age"] ∅ (fun _ => true)).
Proof.
  apply (run_future_model_unknown no_float_of_str sample_sensor (VDict sample_patient)
           (World None ["mq2"; "age"] ∅ (fun _ => true))).
  left. reflexivity.
Defined.

Lemma run_future_model_result_shape_witness :
  (Some 0.7%float = None <-> "HIGH RISK" = "UNKNOWN") /\
  (forall p : float, Some 0.7%float = Some p ->
     "HIGH RISK" = "LOW RISK" \/ "HIGH RISK" = "MEDIUM RISK" \/ "HIGH RISK" = "HIGH RISK").
Proof.
  apply (run_future_model_result_shape no_float_of_str sample_sensor
           (VDict sample_patient) (sample_world 0.7) (sample_world 0.7)
           (Some 0.7%float) "HIGH RISK").
  reflexivity.
Defined.

Lemma run_future_model_pure_witness :
  (run_future_model no_float_of_str sample_sensor (VDict sample_patient)
     (sample_world 0.7)).1
  = (run_future_model no_float_of_str sample_sensor (VDict sample_patient)
       (World (Some (fun _ => Ok 0.7%float)) ["mq2"; "age"]
              (<[ATTACKS_FILE := VList []]> ∅) (fun _ => false))).1.
Proof.
  apply (run_future_model_pure no_float_of_str sample_sensor (VDict sample_patient)
           (sample_world 0.7)
           (World (Some (fun _ => Ok 0.7%float)) ["mq2"; "age"]
                  (<[ATTACKS_FILE := VList []]> ∅) (fun _ => false)));
    reflexivity.
Defined.

Lemma default_profile_when_absent_witness :
  (run_future_model no_float_of_str sample_sensor VNone (sample_world 0.5)).1
    = Ok (Some 0.5%float, "MEDIUM RISK") /\
  feature_vector ["mq2"; "age"] (SensorFeats 55.5 0 7 0 12) (PatientFeats 21 0 0 0 0)
    !! 1%nat = Some 21%float.
Proof.
  destruct (default_profile_when_absent no_float_of_str
              (fun _ => Ok 0.5%float) ["mq2"; "age"] ∅ (fun _ => true)
              sample_sensor (SensorFeats 55.5 0 7 0 12))
    as (Hrun & _ & Hage & _).
  - discriminate.
  - reflexivity.
  - split; [exact Hrun | apply Hage; reflexivity].
Defined.

Lemma default_profile_categorical_zero_witness :
  feat_map (SensorFeats 55.5 0 7 0 12) (PatientFeats 63 0 0 0 0) !! "smoker_level"
    = Some 0%float.
Proof.
  apply (default_profile_categorical_zero no_float_of_str sample_sensor
           sample_default_fields
           (SensorFeats 55.5 0 7 0 12) (PatientFeats 63 0 0 0 0));
    reflexivity.
Defined.

Lemma sensor_field_defaults_witness :
  r_mq2 (ReadingFields 30.2 60 1 1 0) = 1 /\
  r_dust (ReadingFields 30.2 60 1 1 0) = 0%float.
Proof.
  destruct (sensor_field_defaults no_float_of_str no_int_of_str sample_payload
              (ReadingFields 30.2 60 1 1 0))
    as ((_ & _ & Hmq2 & _ & _ & _ & Hdust) & _).
  - reflexivity.
  - split; [apply Hmq2 | apply Hdust]; reflexivity.
Defined.

(** In [api_sensor] a payload without mq2 does not get 0 for it: the
    empty payload is read with mq2 = 1. *)
Lemma api_sensor_missing_mq2_not_zero :
  ~ (forall (d : gmap string pyval) (r : reading_fields),
       read_fields no_float_of_str no_int_of_str (py_or (VDict d) (VDict ∅)) = Ok r ->
       d !! "mq2" = None ->
       r_mq2 r = 0).
Proof.
  intros H.
  specialize (H ∅ (ReadingFields 0 0 1 1 0) eq_refl eq_refl).
  discriminate H.
Qed.


(** * The further properties at sample inputs *)

Lemma api_sensor_stores_reading_witness :
  files (api_sensor no_float_of_str no_int_of_str plain_str_of_float
           "2024-05-01T10:00:00" (VDict huge_payload) (sample_world 0.7)).2
    !! READINGS_FILE
  = Some (VList ([] ++ [reading_record "2024-05-01T10:00:00"
                          (ReadingFields 0 0 (2 ^ 1024) 1 0)])).
Proof.
  apply (api_sensor_stores_reading no_float_of_str no_int_of_str plain_str_of_float
           "2024-05-01T10:00:00" (VDict huge_payload) (sample_world 0.7)
           (ReadingFields 0 0 (2 ^ 1024) 1 0) []); reflexivity.
Defined.

Lemma api_sensor_rejects_payload_witness :
  api_sensor no_float_of_str no_int_of_str plain_str_of_float
    "2024-05-01T10:00:00" (VList [VInt 1]) sample_site
  = (Raise AttributeError, sample_site).
Proof.
  apply (api_sensor_rejects_payload no_float_of_str no_int_of_str plain_str_of_float
           "2024-05-01T10:00:00" (VList [VInt 1]) sample_site AttributeError).
  reflexivity.
Defined.

Lemma api_sensor_keeps_attack_log_high_witness :
  exists la' : list pyval,
    log_of (api_sensor no_float_of_str no_int_of_str plain_str_of_float
              "2024-05-01T10:00:00" (VDict sample_payload) sample_site).2 ATTACKS_FILE
      = VList la' /\
    Forall high_risk_record la' /\
    (la' = [sample_attack] \/ exists rec : pyval, la' = [sample_attack] ++ [rec]).
Proof.
  apply (api_sensor_keeps_attack_log_high no_float_of_str no_int_of_str
           plain_str_of_float "2024-05-01T10:00:00" (VDict sample_payload)
           sample_site [sample_attack]).
  - reflexivity.
  - apply Forall_singleton. eexists _, 0.9%float.
    split; [reflexivity|]. split; [reflexivity|]. split; reflexivity.
Defined.

Lemma api_sensor_empty_body_witness :
  api_sensor no_float_of_str no_int_of_str plain_str_of_float
    "2024-05-01T10:00:00" VNone sample_site
  = api_sensor no_float_of_str no_int_of_str plain_str_of_float
      "2024-05-01T10:00:00" (VDict ∅) sample_site.
Proof.
  apply (api_sensor_empty_body no_float_of_str no_int_of_str plain_str_of_float
           "2024-05-01T10:00:00" VNone sample_site).
  reflexivity.
Defined.

Lemma predict_once_agrees_with_api_sensor_witness :
  exists (prob : option float) (label : string),
    response "2024-05-01T10:00:00" (Some 0.7%float) "HIGH RISK"
      = response "2024-05-01T10:00:00" prob label /\
    predict_once no_float_of_str no_int_of_str (VDict sample_payload) sample_site
      = (Ok (predict_response prob label), sample_site) /\
    predict_once no_float_of_str no_int_of_str (VDict sample_payload)
      (api_sensor no_float_of_str no_int_of_str plain_str_of_float
         "2024-05-01T10:00:00" (VDict sample_payload) sample_site).2
      = (Ok (predict_response prob label),
         (api_sensor no_float_of_str no_int_of_str plain_str_of_float
            "2024-05-01T10:00:00" (VDict sample_payload) sample_site).2).
Proof.
  apply (predict_once_agrees_with_api_sensor no_float_of_str no_int_of_str
           plain_str_of_float "2024-05-01T10:00:00" (VDict sample_payload)
           (response "2024-05-01T10:00:00" (Some 0.7%float) "HIGH RISK") sample_site).
  vm_compute. reflexivity.
Defined.


Lemma dashboard_without_assessment_witness :
  dashboard no_float_of_str plain_str_of_float plain_str_of_container (sample_world 0.7)
  = (Done (Render "dashboard.html"
             (list_to_map
                [ ("latest", default VNone (last []));
                  ("latest_attack", VNone);
                  ("patient",
                     default default_patient (files (sample_world 0.7) !! PATIENT_FILE)) ])),
     sample_world 0.7).
Proof.
  apply (dashboard_without_assessment no_float_of_str plain_str_of_float
           plain_str_of_container (sample_world 0.7) []).
  - reflexivity.
  - left. reflexivity.
Defined.

Lemma update_profile_stores_form_witness :
  exists d' : gmap string pyval,
    files (update_profile sample_int_of_str (Some sample_form) (sample_world 0.7)).2
      !! PATIENT_FILE = Some (VDict d') /\
    d' !! "smoker" = Some (VStr "Active smoker") /\
    d' !! "age" = Some (VInt 35) /\
    d' !! "name" = Some (VStr "Hari").
Proof.
  destruct (update_profile_stores_form sample_int_of_str sample_form
              (sample_world 0.7)
              (update_profile sample_int_of_str (Some sample_form) (sample_world 0.7)).2
              (Redirect "patient_profile") default_profile_fields)
    as (_ & _ & d' & Hfile & Hname & _ & Hsmoker & _ & _ & _ & Hage & _).
  - reflexivity.
  - vm_compute. reflexivity.
  - reflexivity.
  - exists d'. split; [exact Hfile|]. split; [exact Hsmoker|].
    split; [|exact Hname]. apply (Hage "35" 35); reflexivity.
Defined.

Lemma update_profile_bad_age_witness :
  exists (w' : world) (d' : gmap string pyval),
    update_profile sample_int_of_str
      (Some (<["age" := "thirty"]> sample_form)) (sample_world 0.7)
      = (Ok (Redirect "patient_profile"), w') /\
    files w' !! PATIENT_FILE = Some (VDict d') /\
    d' !! "age" = Some (dict_get default_profile_fields "age" (VInt 21)) /\
    d' !! "name"
      = Some (form_get (<["age" := "thirty"]> sample_form) "name"
                (dict_get default_profile_fields "name" (VStr "Hari"))) /\
    d' !! "smoker"
      = Some (form_get (<["age" := "thirty"]> sample_form) "smoker"
                (dict_get default_profile_fields "smoker" (VStr "Non-smoker"))).
Proof.
  apply (update_profile_bad_age sample_int_of_str (<["age" := "thirty"]> sample_form)
           (sample_world 0.7) default_profile_fields "thirty"); reflexivity.
Defined.

Lemma update_profile_then_score_witness :
  exists patient' : pyval,
    load_json PATIENT_FILE default_patient
      (update_profile sample_int_of_str (Some sample_form) (sample_world 0.7)).2
      = (Ok patient',
         (update_profile sample_int_of_str (Some sample_form) (sample_world 0.7)).2) /\
    smoker_level no_float_of_str (py_or patient' default_patient) = Ok 2%float.
Proof.
  destruct (update_profile_then_score no_float_of_str sample_int_of_str sample_form
              (sample_world 0.7)
              (update_profile sample_int_of_str (Some sample_form) (sample_world 0.7)).2
              (Redirect "patient_profile"))
    as (patient' & Hload & _ & Hsmoker & _).
  - vm_compute. reflexivity.
  - reflexivity.
  - exists patient'. split; [exact Hload|].
    apply (Hsmoker "Active smoker"). reflexivity.
Defined.

Lemma update_profile_needs_dict_witness :
  update_profile sample_int_of_str (Some sample_form)
    (World None [] (<[PATIENT_FILE := VList []]> ∅) (fun _ => true))
  = (Raise AttributeError,
     World None [] (<[PATIENT_FILE := VList []]> ∅) (fun _ => true)).
Proof.
  apply (update_profile_needs_dict sample_int_of_str sample_form
           (World None [] (<[PATIENT_FILE := VList []]> ∅) (fun _ => true))).
  intros d. vm_compute. discriminate.
Defined.


Lemma graphs_shows_newest_readings_witness :
  exists rows : list pyval,
    graphs plain_str_of_float plain_str_of_container no_clock_of_iso map_dict_keys
      (Builtin TypeError) sample_site
    = (Done (Render "graphs.html" (list_to_map [ ("readings", VList rows) ])),
       sample_site) /\
    length rows = 1%nat /\
    exists d' : gmap string pyval,
      rows !! 0%nat = Some (VDict d') /\
      d' !! "time" = Some (VStr "2024-05-01T09:00:00") /\
      d' !! "dust_equiv" = Some (VFloat 80).
Proof.
  destruct (graphs_shows_newest_readings plain_str_of_float plain_str_of_container
              no_clock_of_iso map_dict_keys (Builtin TypeError) sample_site
              [sample_reading])
    as (rows & Hpage & Hlen & Hrows).
  - reflexivity.
  - apply Forall_singleton. eexists. reflexivity.
  - exists rows. split; [exact Hpage|]. split; [exact Hlen|].
    destruct rows as [|r' rows]; [discriminate Hlen|].
    destruct (Hrows 0%nat r' eq_refl) as (d & d' & Hd & -> & Htime & Hdust & _).
    change ([sample_reading] !! 0%nat = Some (VDict d)) in Hd.
    injection Hd as <-.
    exists d'. split; [reflexivity|]. split; [exact Htime | exact Hdust].
Defined.

Lemma startup_degrades_to_unknown_witness :
  run_future_model no_float_of_str sample_sensor (VDict sample_patient)
    (startup None (Some ["mq2"; "age"]) ∅ (fun _ => true))
  = (Ok (None, "UNKNOWN"), startup None (Some ["mq2"; "age"]) ∅ (fun _ => true)).
Proof.
  destruct (startup_degrades_to_unknown no_float_of_str no_int_of_str
              plain_str_of_float None (Some ["mq2"; "age"]) ∅ (fun _ => true))
    as (_ & _ & Hscore & _).
  - left. reflexivity.
  - apply Hscore.
Defined.

Lemma score_ignores_other_keys_witness :
  run_future_model no_float_of_str
    (<["timestamp" := VStr "2024-05-01T10:00:00"]> sample_sensor)
    (VDict (<["name" := VStr "Asha"]> sample_patient)) (sample_world 0.7)
  = run_future_model no_float_of_str sample_sensor (VDict sample_patient)
      (sample_world 0.7).
Proof.
  apply (score_ignores_other_keys no_float_of_str sample_sensor sample_patient
           "timestamp" "name" (VStr "2024-05-01T10:00:00") (VStr "Asha")
           (sample_world 0.7)).
  - apply (bool_decide_unpack _). vm_compute. exact I.
  - apply (bool_decide_unpack _). vm_compute. exact I.
Defined.

Lemma risk_label_monotone_witness :
  (risk_label 0.5 = "LOW RISK" -> risk_label 0.2 = "LOW RISK") /\
  (risk_label 0.2 = "HIGH RISK" -> risk_label 0.5 = "HIGH RISK").
Proof. apply (risk_label_monotone 0.2 0.5). reflexivity. Defined.

Lemma api_sensor_gas_overflow_witness :
  api_sensor no_float_of_str no_int_of_str plain_str_of_float
    "2024-05-01T10:00:00" (VDict huge_payload) sample_site
  = (Raise OverflowError,
     (save_json READINGS_FILE
        (VList ([sample_reading]
                ++ [reading_record "2024-05-01T10:00:00"
                      (ReadingFields 0 0 (2 ^ 1024) 1 0)]))
        sample_site).2).
Proof.
  apply (api_sensor_gas_overflow no_float_of_str no_int_of_str plain_str_of_float
           "2024-05-01T10:00:00" (VDict huge_payload) sample_site
           (ReadingFields 0 0 (2 ^ 1024) 1 0) [sample_reading] (fun _ => Ok 0.7%float)).
  - reflexivity.
  - reflexivity.
  - reflexivity.
  - discriminate.
  - left. vm_compute. reflexivity.
Defined.

Lemma update_profile_idempotent_witness :
  update_profile sample_int_of_str (Some sample_form)
    (update_profile sample_int_of_str (Some sample_form) (sample_world 0.7)).2
  = (Ok (Redirect "patient_profile"),
     (update_profile sample_int_of_str (Some sample_form) (sample_world 0.7)).2).
Proof.
  apply (update_profile_idempotent sample_int_of_str sample_form (sample_world 0.7)).
  - vm_compute. reflexivity.
  - reflexivity.
Defined.
